(** * Personal finance tracker: the store, the desktop operations and the
      HTTP query surface

    The development follows the layers of the program:
    - [PyLib]: the Python built-ins the program calls ([float],
      truthiness, exceptions);
    - [Pandas]: the data frame [upload_csv] reads its rows from;
    - [Sqlite]: the single table [transactions], the column affinities of
      its schema, connections with their uncommitted view, and the
      queries the program sends;
    - [Gui] ([finance_tracker_GUI.py]) and [Api] ([finance_tracker_api.py]):
      the functions of the program, written over the layers above;
    - [Notions] and [Sample]: the vocabulary of the statements, and one
      engine on which the functions compute;
    - the properties, in the order: initialisation, manual entry, CSV
      import, required parameters, amount filter, keyword filter,
      monthly summary; then further properties of the desktop
      operations (the two writers, a session of the window, the
      display), of the query surface, and of both together.

    Text is a [string] of ASCII characters, a Python float an IEEE 754
    binary64 value ([spec_float] at precision 53), a rowid an integer. *)

From Stdlib Require Import String Ascii List ZArith Bool Lia.
From Stdlib Require Import Floats.SpecFloat DecimalString.
From Stdlib Require Import Sorting.Sorted Sorting.Permutation.
Import ListNotations.

Local Open Scope string_scope.
Local Open Scope list_scope.

(* ================================================================== *)
(** * Python built-ins *)
(* ================================================================== *)

Module PyLib.

(** A Python [float]: binary64. *)
Definition float : Type := spec_float.
Definition prec : Z := 53.
Definition emax : Z := 1024.

Definition fzero : float := S754_zero false.
Definition finf (neg : bool) : float := S754_infinity neg.
Definition fnan : float := S754_nan.

(** [x > y], [x == y] on floats; every comparison with NaN is false. *)
Definition fgt (x y : float) : bool := SFltb y x.
Definition feq (x y : float) : bool := SFeqb x y.

Definition is_nan (x : float) : bool :=
  match x with S754_nan => true | _ => false end.

(** [bool(x)] for a float: false exactly for [0.0] and [-0.0]. *)
Definition float_truthy (x : float) : bool := negb (feq x fzero).

(** The float nearest to an integer (used when SQLite widens an INTEGER
    to REAL). *)
Definition float_of_Z (z : Z) : float := binary_normalize prec emax z 0 false.

(** The float nearest to [(-1)^neg * m * 10^e10], rounded once, to
    nearest even. *)
Definition float_of_decimal (neg : bool) (m e10 : Z) : float :=
  if (m <=? 0)%Z then S754_zero neg
  else if (0 <=? e10)%Z then
    binary_round prec emax neg (Z.to_pos (m * 10 ^ e10)) 0
  else
    SFdiv prec emax (S754_finite neg (Z.to_pos m) 0)
                    (S754_finite false (Z.to_pos (10 ^ (- e10))) 0).

(** ** Characters *)

Definition is_digit (c : ascii) : bool :=
  let n := nat_of_ascii c in (48 <=? n)%nat && (n <=? 57)%nat.

Definition digit_value (c : ascii) : Z := Z.of_nat (nat_of_ascii c) - 48.

(** The white space [float] strips: tab, LF, VT, FF, CR and space. *)
Definition is_space (c : ascii) : bool :=
  let n := nat_of_ascii c in ((9 <=? n)%nat && (n <=? 13)%nat) || (n =? 32)%nat.

Definition lower (c : ascii) : ascii :=
  let n := nat_of_ascii c in
  if (65 <=? n)%nat && (n <=? 90)%nat then ascii_of_nat (n + 32) else c.

Definition newline : ascii := ascii_of_nat 10.

(** ** [float(text)]

    The grammar of the language reference:
<<
    floatvalue  ::= [sign] (floatnumber | infinity | nan)
    floatnumber ::= number [exponent]
    number      ::= [digitpart] "." digitpart | digitpart ["."]
    exponent    ::= ("e" | "E") [sign] digitpart
    digitpart   ::= digit (["_"] digit)*
>>
    surrounded by optional white space; [None] stands for [ValueError]. *)

Fixpoint lstrip (s : list ascii) : list ascii :=
  match s with
  | c :: r => if is_space c then lstrip r else s
  | [] => []
  end.

Definition strip (s : list ascii) : list ascii :=
  rev (lstrip (rev (lstrip s))).

(** The rest of a [digitpart] after its first digit. *)
Fixpoint digitpart_tail (s : list ascii) : list ascii * list ascii :=
  match s with
  | c :: r =>
      if is_digit c then
        let (ds, r') := digitpart_tail r in (c :: ds, r')
      else if Ascii.eqb c "_" then
        match r with
        | d :: r2 =>
            if is_digit d then
              let (ds, r') := digitpart_tail r2 in (d :: ds, r')
            else ([], s)
        | [] => ([], s)
        end
      else ([], s)
  | [] => ([], [])
  end.

Definition digitpart (s : list ascii) : option (list ascii * list ascii) :=
  match s with
  | c :: r =>
      if is_digit c then
        let (ds, r') := digitpart_tail r in Some (c :: ds, r')
      else None
  | [] => None
  end.

Definition digits_value (ds : list ascii) : Z :=
  fold_left (fun acc c => acc * 10 + digit_value c)%Z ds 0%Z.

(** [number]: the integer digits, the fraction digits and the unread
    input. *)
Definition number (s : list ascii)
  : option (list ascii * list ascii * list ascii) :=
  match digitpart s with
  | Some (ip, r) =>
      match r with
      | c :: r1 =>
          if Ascii.eqb c "." then
            match digitpart r1 with
            | Some (fp, r2) => Some (ip, fp, r2)
            | None => Some (ip, [], r1)
            end
          else Some (ip, [], r)
      | [] => Some (ip, [], [])
      end
  | None =>
      match s with
      | c :: r1 =>
          if Ascii.eqb c "." then
            match digitpart r1 with
            | Some (fp, r2) => Some ([], fp, r2)
            | None => None
            end
          else None
      | [] => None
      end
  end.

Definition sign (s : list ascii) : bool * list ascii :=
  match s with
  | c :: r =>
      if Ascii.eqb c "-" then (true, r)
      else if Ascii.eqb c "+" then (false, r)
      else (false, s)
  | [] => (false, [])
  end.

(** [exponent]: the decimal exponent and the unread input; an input that
    does not start with an exponent is left unread, with exponent 0. *)
Definition exponent (s : list ascii) : Z * list ascii :=
  match s with
  | c :: r =>
      if Ascii.eqb (lower c) "e" then
        let (neg, r1) := sign r in
        match digitpart r1 with
        | Some (ds, r2) => (cond_Zopp neg (digits_value ds), r2)
        | None => (0%Z, s)
        end
      else (0%Z, s)
  | [] => (0%Z, [])
  end.

Definition lower_all (s : list ascii) : string :=
  string_of_list_ascii (map lower s).

Definition py_float (text : string) : option float :=
  let (neg, body) := sign (strip (list_ascii_of_string text)) in
  let word := lower_all body in
  if (word =? "inf") || (word =? "infinity") then Some (finf neg)
  else if word =? "nan" then Some fnan
  else
    match number body with
    | Some (ip, fp, r) =>
        match exponent r with
        | (e, []) =>
            Some (float_of_decimal neg (digits_value (ip ++ fp))
                                   (e - Z.of_nat (List.length fp)))
        | (_, _ :: _) => None
        end
    | None => None
    end.

(** ** Objects and exceptions *)

(** The Python objects the program passes to [cursor.execute]: a [str],
    an [int] (or [bool]), a [float], or an object of another type, named
    by its type (the [numpy.int64] cells of a frame whose columns are
    all integers).  A cell that is empty in the CSV file reaches the
    program as the float NaN. *)
Inductive pyval :=
  | PyStr (s : string)
  | PyInt (z : Z)
  | PyFloat (f : float)
  | PyObject (type_name : string).

Inductive exn_class :=
  | ValueError
  | KeyError
  | OverflowError
  | ParserError
  | OperationalError      (* sqlite3.OperationalError, a sqlite3.Error *)
  | IntegrityError        (* sqlite3.IntegrityError, a sqlite3.Error *)
  | ProgrammingError.     (* sqlite3.ProgrammingError, a sqlite3.Error *)

Record exn := mk_exn { class_of : exn_class; message : string }.

Definition is_sqlite_error (e : exn) : bool :=
  match class_of e with
  | OperationalError | IntegrityError | ProgrammingError => true
  | _ => false
  end.

(** A computation that returns or raises. *)
Inductive result (A : Type) :=
  | Ok (a : A)
  | Raise (e : exn).
Arguments Ok {A} a.
Arguments Raise {A} e.

Definition rbind {A B} (r : result A) (k : A -> result B) : result B :=
  match r with
  | Ok a => k a
  | Raise e => Raise e
  end.

(** [bool(s)] for an optional [str] ([None] and the empty string are
    false). *)
Definition str_truthy (o : option string) : bool :=
  match o with
  | Some (String _ _) => true
  | _ => false
  end.

(** ** Formatting *)

(** [str(n)] for an [int]. *)
Definition str_of_Z (z : Z) : string := NilZero.string_of_int (Z.to_int z).

Definition digit_of (z : Z) : ascii := ascii_of_nat (48 + Z.to_nat z).

(** [n / d] for positive [n] and [d], rounded to the nearest integer,
    a tie going to the even one. *)
Definition div_half_even (n d : Z) : Z :=
  let q := (n / d)%Z in
  match (2 * (n mod d) ?= d)%Z with
  | Lt => q
  | Gt => (q + 1)%Z
  | Eq => if Z.even q then q else (q + 1)%Z
  end.

(** [format(x, ".2f")] for a float: the exact value of [x] rounded to
    hundredths, written with all its integer digits. *)
Definition format_2f (x : float) : string :=
  match x with
  | S754_nan => "nan"
  | S754_infinity s => if s then "-inf" else "inf"
  | S754_zero s => if s then "-0.00" else "0.00"
  | S754_finite s m e =>
      let hundredths :=
        if (0 <=? e)%Z then (Zpos m * 2 ^ e * 100)%Z
        else div_half_even (Zpos m * 100) (2 ^ (- e)) in
      ((if s then "-" else EmptyString)
       ++ str_of_Z (hundredths / 100) ++ "."
       ++ String (digit_of (hundredths mod 100 / 10))
            (String (digit_of (hundredths mod 10)) EmptyString))%string
  end.

End PyLib.

Notation "x <- r ;; k" := (PyLib.rbind r (fun x => k))
  (at level 61, r at next level, right associativity).

(* ================================================================== *)
(** * The data frame [pd.read_csv] returns *)
(* ================================================================== *)

Module Pandas.
Import PyLib.

(** Column labels (unique: [read_csv] renames duplicates) and the data
    rows, each holding one cell per column. *)
Record DataFrame := mk_frame {
  columns : list string;
  data : list (list pyval)
}.

Fixpoint index_of (label : string) (labels : list string) : option nat :=
  match labels with
  | l :: ls =>
      if l =? label then Some O
      else option_map S (index_of label ls)
  | [] => None
  end.

(** [label in df.columns] *)
Definition has_column (df : DataFrame) (label : string) : bool :=
  existsb (String.eqb label) (columns df).

(** A row as [df.iterrows()] yields it, and [row[label]]. *)
Definition Row : Type := list string * list pyval.

Definition iterrows (df : DataFrame) : list Row :=
  map (fun cells => (columns df, cells)) (data df).

Definition getitem (row : Row) (label : string) : result pyval :=
  match index_of label (fst row) with
  | Some i =>
      match nth_error (snd row) i with
      | Some v => Ok v
      | None => Raise (mk_exn KeyError ("'" ++ label ++ "'"))
      end
  | None => Raise (mk_exn KeyError ("'" ++ label ++ "'"))
  end.

End Pandas.

(* ================================================================== *)
(** * The SQLite store *)
(* ================================================================== *)

Module Sqlite.
Import PyLib.

(** ** Values and the table [transactions]

    The schema of [init_db]:
<<
    id INTEGER PRIMARY KEY AUTOINCREMENT,
    date TEXT NOT NULL, category TEXT NOT NULL,
    amount REAL NOT NULL, description TEXT
>>
    A column with TEXT affinity stores numbers as text, so [date] and
    [category] hold text and [description] text or NULL.  A column with
    REAL affinity stores integers and numeric-looking text as REAL and
    keeps other text, so [amount] holds a REAL or such a text. *)

Inductive value :=
  | Null
  | Integer (z : Z)
  | Real (f : float)
  | Text (s : string).

Inductive amount_cell :=
  | AReal (f : float)
  | AText (s : string).

Record transaction := mk_transaction {
  id : Z;
  date : string;
  category : string;
  amount : amount_cell;
  description : option string
}.

(** The rows in rowid order, and the largest rowid handed out so far
    (the [sqlite_sequence] entry AUTOINCREMENT keeps; it goes away with
    the table). *)
Record table := mk_table {
  rows : list transaction;
  seq : Z
}.

Definition empty_table : table := mk_table [] 0.

(** The database file: [None] when it has no table [transactions]. *)
Definition database : Type := option table.

(** The records a database file holds. *)
Definition stored (db : database) : list transaction :=
  match db with
  | Some t => rows t
  | None => []
  end.

(** ** Binding Python objects *)

Definition fits_int64 (z : Z) : bool :=
  ((- 2 ^ 63 <=? z) && (z <? 2 ^ 63))%Z.

(** A float parameter: NaN is bound as NULL. *)
Definition bind_float (f : float) : option float :=
  if is_nan f then None else Some f.

Definition bind (v : pyval) : result value :=
  match v with
  | PyStr s => Ok (Text s)
  | PyInt z =>
      if fits_int64 z then Ok (Integer z)
      else Raise (mk_exn OverflowError
                    "Python int too large to convert to SQLite INTEGER")
  | PyFloat f =>
      match bind_float f with
      | Some x => Ok (Real x)
      | None => Ok Null
      end
  | PyObject type_name =>
      Raise (mk_exn ProgrammingError
               ("Error binding parameter: type '" ++ type_name
                ++ "' is not supported"))
  end.

(** ** Dates as SQLite reads them *)

Definition in_range (lo hi z : Z) : bool := ((lo <=? z) && (z <=? hi))%Z.

(** The fields of a text of the exact shape [dddd-dd-dd]. *)
Definition parse_ymd (s : string) : option (Z * Z * Z) :=
  match list_ascii_of_string s with
  | [y1; y2; y3; y4; h1; m1; m2; h2; d1; d2] =>
      if forallb is_digit [y1; y2; y3; y4; m1; m2; d1; d2]
         && Ascii.eqb h1 "-" && Ascii.eqb h2 "-"
      then Some (digits_value [y1; y2; y3; y4],
                 digits_value [m1; m2],
                 digits_value [d1; d2])
      else None
  | _ => None
  end.

Definition leap_year (y : Z) : bool :=
  ((y mod 4 =? 0) && (negb (y mod 100 =? 0) || (y mod 400 =? 0)))%Z.

Definition days_in_month (y m : Z) : Z :=
  if (m =? 2)%Z then (if leap_year y then 29 else 28)%Z
  else if ((m =? 4) || (m =? 6) || (m =? 9) || (m =? 11))%Z then 30%Z
  else 31%Z.

(** [dddd-dd-dd] naming a day of the calendar. *)
Definition calendar_date (s : string) : bool :=
  match parse_ymd s with
  | Some (y, m, d) => in_range 1 12 m && in_range 1 (days_in_month y m) d
  | None => false
  end.

(** [dddd-dd-dd] whose month is not 01..12 or whose day is not 01..31. *)
Definition field_out_of_range (s : string) : bool :=
  match parse_ymd s with
  | Some (_, m, d) => negb (in_range 1 12 m && in_range 1 31 d)
  | None => false
  end.

(** ** The engine

    Four computations are SQLite's own and are taken as an interface:
    how a REAL is written when it is stored in a TEXT column, which text
    counts as a number in a REAL column, the aggregate [SUM] over the
    amounts of a group, and [strftime('%Y-%m', text)].  Of the last one
    two documented facts are used: a calendar date
    [YYYY-MM-DD] yields its own year and month, and a text of that shape
    whose month or day field is out of range is no date and yields NULL. *)

Class Engine := {
  real_to_text : float -> string;
  text_to_real : string -> option float;
  sum : list amount_cell -> float;
  strftime_Ym : string -> option string;
  strftime_Ym_calendar :
    forall s, calendar_date s = true ->
              strftime_Ym s = Some (substring 0 7 s);
  strftime_Ym_out_of_range :
    forall s, field_out_of_range s = true -> strftime_Ym s = None
}.

(** ** Column affinities *)

Definition text_of_Z (z : Z) : string := NilZero.string_of_int (Z.to_int z).

Section Affinity.
Context {E : Engine}.

(** The value a TEXT column stores; [None] is NULL. *)
Definition text_affinity (v : value) : option string :=
  match v with
  | Null => None
  | Text s => Some s
  | Integer z => Some (text_of_Z z)
  | Real f => Some (real_to_text f)
  end.

(** The value a REAL column stores; [None] is NULL. *)
Definition real_affinity (v : value) : option amount_cell :=
  match v with
  | Null => None
  | Real f => Some (AReal f)
  | Integer z => Some (AReal (float_of_Z z))
  | Text s =>
      match text_to_real s with
      | Some f => Some (AReal f)
      | None => Some (AText s)
      end
  end.

End Affinity.

(** ** Statements *)

Definition no_such_table : exn :=
  mk_exn OperationalError "no such table: transactions".

Definition not_null_failed (column : string) : exn :=
  mk_exn IntegrityError ("NOT NULL constraint failed: transactions." ++ column).

(** [DROP TABLE IF EXISTS transactions] *)
Definition drop_table_if_exists (db : database) : database := None.

(** [CREATE TABLE IF NOT EXISTS transactions (...)] *)
Definition create_table_if_not_exists (db : database) : database :=
  match db with
  | Some t => Some t
  | None => Some empty_table
  end.

Section Insert.
Context {E : Engine}.

(** [INSERT INTO transactions (date, category, amount, description)
    VALUES (?, ?, ?, ?)] with its four parameters: the statement is
    compiled against the schema, the parameters are bound, then the row
    is checked and stored under the next rowid. *)
Definition insert (p_date p_category p_amount p_description : pyval)
                  (db : database) : result database :=
  match db with
  | None => Raise no_such_table
  | Some t =>
      v_date <- bind p_date ;;
      v_category <- bind p_category ;;
      v_amount <- bind p_amount ;;
      v_description <- bind p_description ;;
      match text_affinity v_date with
      | None => Raise (not_null_failed "date")
      | Some d =>
          match text_affinity v_category with
          | None => Raise (not_null_failed "category")
          | Some c =>
              match real_affinity v_amount with
              | None => Raise (not_null_failed "amount")
              | Some a =>
                  let row :=
                    mk_transaction (seq t + 1) d c a
                                   (text_affinity v_description) in
                  Ok (Some (mk_table (rows t ++ [row]) (seq t + 1)))
              end
          end
      end
  end.

End Insert.

(** ** Connections

    A connection sees the file plus its own uncommitted changes.  The
    [sqlite3] module opens a transaction before an INSERT and leaves
    schema statements in autocommit mode; [commit] writes the view to the
    file; a connection that is closed, or dropped when its function
    returns, loses what it did not commit. *)

Record connection := mk_connection {
  disk : database;
  view : database
}.

Definition connect (file : database) : connection :=
  mk_connection file file.

Definition execute_schema (stmt : database -> database) (c : connection)
  : connection :=
  let db := stmt (view c) in mk_connection db db.

Definition commit (c : connection) : connection :=
  mk_connection (view c) (view c).

(** The file a connection leaves behind when it is closed, and when it
    is dropped without being closed. *)
Definition close (c : connection) : database := disk c.
Definition dropped (c : connection) : database := disk c.

(** Code that runs on a connection and returns or raises; the connection
    survives a raise in the state the failing statement found it in. *)
Definition session (A : Type) : Type := connection -> result A * connection.

Definition sret {A} (a : A) : session A := fun c => (Ok a, c).

Definition sbind {A B} (m : session A) (k : A -> session B) : session B :=
  fun c =>
    match m c with
    | (Ok a, c') => k a c'
    | (Raise e, c') => (Raise e, c')
    end.

Definition lift {A} (r : result A) : session A := fun c => (r, c).

Definition execute_update (stmt : database -> result database)
  : session unit :=
  fun c =>
    match stmt (view c) with
    | Ok db => (Ok tt, mk_connection (disk c) db)
    | Raise e => (Raise e, c)
    end.

(** ** Queries *)

(** [SELECT * FROM transactions WHERE ...] *)
Definition select (cond : transaction -> bool) (db : database)
  : result (list transaction) :=
  match db with
  | Some t => Ok (filter cond (rows t))
  | None => Raise no_such_table
  end.

Definition select_all : database -> result (list transaction) :=
  select (fun _ => true).

(** [date BETWEEN ? AND ?] on text, in byte order. *)
Definition date_between (start_date end_date : string) (t : transaction)
  : bool :=
  (start_date <=? date t) && (date t <=? end_date).

(** [category = ?] *)
Definition category_is (c : string) (t : transaction) : bool :=
  category t =? c.

(** [amount > ?]: a comparison with NULL selects nothing, text sorts
    above every number. *)
Definition amount_above (p : option float) (t : transaction) : bool :=
  match p with
  | None => false
  | Some m =>
      match amount t with
      | AReal x => fgt x m
      | AText _ => true
      end
  end.

(** [text LIKE pattern]: [%] stands for any run of characters, [_] for
    any one character, and letters A-Z match in either case. *)
Fixpoint like (pattern text : string) {struct pattern} : bool :=
  match pattern with
  | EmptyString =>
      match text with
      | EmptyString => true
      | String _ _ => false
      end
  | String p pattern' =>
      if Ascii.eqb p "%" then
        (fix any (t : string) : bool :=
           like pattern' t ||
           match t with
           | String _ t' => any t'
           | EmptyString => false
           end) text
      else
        match text with
        | String c text' =>
            (Ascii.eqb p "_" || Ascii.eqb (lower p) (lower c))
            && like pattern' text'
        | EmptyString => false
        end
  end.

(** [description LIKE ?]; NULL matches nothing. *)
Definition description_like (pattern : string) (t : transaction) : bool :=
  match description t with
  | Some d => like pattern d
  | None => false
  end.

(** The operator refuses a pattern of more than 50000 bytes, at the
    first row it is applied to. *)
Definition like_pattern_limit : Z := 50000.

Definition pattern_too_complex : exn :=
  mk_exn OperationalError "LIKE or GLOB pattern too complex".

(** [SELECT * FROM transactions WHERE description LIKE ?] *)
Definition select_description_like (pattern : string) (db : database)
  : result (list transaction) :=
  match db with
  | Some t =>
      match rows t with
      | [] => Ok []
      | _ :: _ =>
          if (like_pattern_limit <? Z.of_nat (String.length pattern))%Z
          then Raise pattern_too_complex
          else Ok (filter (description_like pattern) (rows t))
      end
  | None => Raise no_such_table
  end.

(** ** Grouping by month *)

(** A group key: NULL, or a text; NULL sorts first, text in byte order. *)
Definition key : Type := option string.

Definition key_compare (a b : key) : comparison :=
  match a, b with
  | None, None => Eq
  | None, Some _ => Lt
  | Some _, None => Gt
  | Some x, Some y => String.compare x y
  end.

Definition key_lt (a b : key) : Prop := key_compare a b = Lt.

Definition key_eqb (a b : key) : bool :=
  match key_compare a b with Eq => true | _ => false end.

(** Put one amount into the group of its key, keeping the groups in
    ascending key order. *)
Fixpoint add_to_group (k : key) (a : amount_cell)
                      (groups : list (key * list amount_cell))
  : list (key * list amount_cell) :=
  match groups with
  | [] => [(k, [a])]
  | (k', members) :: rest =>
      match key_compare k k' with
      | Eq => (k', members ++ [a]) :: rest
      | Lt => (k, [a]) :: groups
      | Gt => (k', members) :: add_to_group k a rest
      end
  end.

Section Summary.
Context {E : Engine}.

Definition month_of (t : transaction) : key := strftime_Ym (date t).

Definition group_by_month (l : list transaction)
  : list (key * list amount_cell) :=
  fold_left (fun groups t => add_to_group (month_of t) (amount t) groups)
            l [].

(** [SELECT strftime('%Y-%m', date) AS month, SUM(amount) AS total_spent
    FROM transactions GROUP BY month] *)
Definition select_monthly_summary (db : database)
  : result (list (key * float)) :=
  match db with
  | Some t =>
      Ok (map (fun g => (fst g, sum (snd g))) (group_by_month (rows t)))
  | None => Raise no_such_table
  end.

End Summary.

End Sqlite.

Notation "x <<- m ;; k" := (Sqlite.sbind m (fun x => k))
  (at level 61, m at next level, right associativity).

(* ================================================================== *)
(** * The desktop program, [finance_tracker_GUI.py] *)
(* ================================================================== *)

Module Gui.
Import PyLib Pandas Sqlite.

(** What a function shows: a prompt of [input], a line of [print], a
    message box. *)
Inductive ui_event :=
  | Prompt (text : string)
  | Print (text : string)
  | ShowError (title text : string)
  | ShowInfo (title text : string).

(** What a function leaves: the database file, what it showed, and the
    exception it let through, if any. *)
Record outcome := mk_outcome {
  file : database;
  shown : list ui_event;
  uncaught : option exn
}.

(** ** Validation *)

(** [\d{n}] and a literal character, each returning the unread input. *)
Fixpoint match_digits (n : nat) (s : list ascii) : option (list ascii) :=
  match n with
  | O => Some s
  | S n' =>
      match s with
      | c :: r => if is_digit c then match_digits n' r else None
      | [] => None
      end
  end.

Definition match_char (c : ascii) (s : list ascii) : option (list ascii) :=
  match s with
  | x :: r => if Ascii.eqb x c then Some r else None
  | [] => None
  end.

(** [$]: the end of the text, or the position before a final newline. *)
Definition match_end (s : list ascii) : bool :=
  match s with
  | [] => true
  | [c] => Ascii.eqb c newline
  | _ => false
  end.

Definition and_then {A B} (o : option A) (k : A -> option B) : option B :=
  match o with
  | Some a => k a
  | None => None
  end.

(** [re.match(r"^\d{4}-\d{2}-\d{2}$", date)], as a truth value. *)
Definition validate_date (date : string) : bool :=
  match and_then (and_then (and_then (and_then
          (match_digits 4 (list_ascii_of_string date))
          (match_char "-")) (match_digits 2)) (match_char "-"))
          (match_digits 2) with
  | Some rest => match_end rest
  | None => false
  end.

(** [float(amount) > 0], false on [ValueError]. *)
Definition validate_amount (amount : string) : bool :=
  match py_float amount with
  | Some f => fgt f fzero
  | None => false
  end.

(** ** [init_db]

    [DROP TABLE IF EXISTS] and [CREATE TABLE IF NOT EXISTS] accept every
    state of the file, so no statement of [init_db] raises and its
    [except] branch does not appear. *)
Definition init_db (db : database) : outcome :=
  let conn := connect db in
  let conn := execute_schema drop_table_if_exists conn in
  let conn := execute_schema create_table_if_not_exists conn in
  let conn := commit conn in
  mk_outcome (close conn) [Print "Database initialized successfully."] None.

Section WithEngine.
Context {E : Engine}.

(** ** [add_transaction]

    The four arguments are what the user types at the four prompts. *)
Definition add_transaction (date category amount description : string)
                           (db : database) : outcome :=
  let asked_date := [Prompt "Enter transaction date (YYYY-MM-DD): "] in
  if negb (validate_date date) then
    mk_outcome db
      (asked_date ++ [Print "Invalid date format. Please use YYYY-MM-DD."])
      None
  else
    let asked_amount :=
      asked_date
      ++ [Prompt "Enter transaction category (e.g., Food, Rent): ";
          Prompt "Enter transaction amount: "] in
    if negb (validate_amount amount) then
      mk_outcome db
        (asked_amount
         ++ [Print "Invalid amount. Please enter a positive number."])
        None
    else
      let asked :=
        asked_amount
        ++ [Prompt "Enter transaction description (optional): "] in
      let run : session unit :=
        match py_float amount with
        | Some f =>
            execute_update
              (insert (PyStr date) (PyStr category) (PyFloat f)
                      (PyStr description))
        | None =>
            lift (Raise (mk_exn ValueError
                           "could not convert string to float"))
        end in
      match run (connect db) with
      | (Ok _, conn) =>
          mk_outcome (close (commit conn))
            (asked ++ [Print "Transaction added successfully!"]) None
      | (Raise e, conn) =>
          if is_sqlite_error e then
            mk_outcome (dropped conn)
              (asked ++ [Print ("Error adding transaction: " ++ message e)])
              None
          else mk_outcome (dropped conn) asked (Some e)
      end.

(** ** [upload_csv] *)

(** What the file dialog and [pd.read_csv] hand to the function. *)
Inductive chosen_file :=
  | Cancelled
  | Unreadable (e : exn)
  | Parsed (df : DataFrame).

Definition required_columns : list string :=
  ["date"; "category"; "amount"; "description"].

(** The body of the loop. *)
Definition insert_row (row : Row) : session unit :=
  p_date <<- lift (getitem row "date") ;;
  p_category <<- lift (getitem row "category") ;;
  p_amount <<- lift (getitem row "amount") ;;
  p_description <<- lift (getitem row "description") ;;
  execute_update (insert p_date p_category p_amount p_description).

(** [for _, row in df.iterrows(): cursor.execute(...)] *)
Fixpoint insert_rows (l : list Row) : session unit :=
  match l with
  | [] => sret tt
  | row :: rest => _ <<- insert_row row ;; insert_rows rest
  end.

Definition upload_failed (e : exn) : ui_event :=
  ShowError "Error" ("Failed to upload CSV: " ++ message e).

Definition upload_csv (chosen : chosen_file) (db : database) : outcome :=
  match chosen with
  | Cancelled => mk_outcome db [] None
  | Unreadable e => mk_outcome db [upload_failed e] None
  | Parsed df =>
      if negb (forallb (has_column df) required_columns) then
        mk_outcome db
          [ShowError "Invalid CSV"
             "CSV must contain columns: date, category, amount, description."]
          None
      else
        match insert_rows (iterrows df) (connect db) with
        | (Ok _, conn) =>
            mk_outcome (close (commit conn))
              [ShowInfo "CSV Upload" "CSV file uploaded successfully."] None
        | (Raise e, conn) =>
            mk_outcome (dropped conn) [upload_failed e] None
        end
  end.

End WithEngine.

(** ** [view_transactions]

    The function draws into the frame [transaction_display]; what is on
    display is kept as the texts of the labels in it, top to bottom. *)

Record view_outcome := mk_view {
  display : list string;
  view_shown : list ui_event;
  view_uncaught : option exn
}.

(** The text of the label of one row; the format [.2f] applies to a
    float and raises for a [str]. *)
Definition label_text (txn : transaction) : result string :=
  match amount txn with
  | AReal f =>
      Ok ("ID: " ++ str_of_Z (id txn) ++ ", Date: " ++ date txn
          ++ ", Category: " ++ category txn
          ++ ", Amount: $" ++ format_2f f
          ++ ", Description: "
          ++ match description txn with
             | Some d => d
             | None => "None"
             end)%string
  | AText _ =>
      Raise (mk_exn ValueError
               "Unknown format code 'f' for object of type 'str'")
  end.

(** [for txn in transactions: ... transaction_label.pack(...)], with
    the labels packed so far. *)
Fixpoint pack_labels (transactions : list transaction) (packed : list string)
  : list string * option exn :=
  match transactions with
  | [] => (packed, None)
  | txn :: rest =>
      match label_text txn with
      | Ok text => pack_labels rest (packed ++ [text])
      | Raise e => (packed, Some e)
      end
  end.

Definition view_transactions (db : database) (on_display : list string)
  : view_outcome :=
  match select_all db with
  | Ok [] =>
      mk_view on_display [ShowInfo "No Data" "No transactions found."] None
  | Ok transactions =>
      let (packed, raised) := pack_labels transactions [] in
      mk_view packed [] raised
  | Raise e =>
      if is_sqlite_error e then
        mk_view on_display
          [ShowError "Database Error"
             ("Error retrieving transactions: " ++ message e)] None
      else mk_view on_display [] (Some e)
  end.

(** ** [main_gui]

    The window after [init_db] and a run of button clicks.  A click on
    "Add Transaction" carries what is typed at the prompts, a click on
    "Upload CSV" the file chosen.  [analyze_spending_gui] reads the table
    and draws into [analysis_frame]: it changes neither the file nor
    [transaction_display].  An exception a callback lets through is
    reported by the event loop, which goes on. *)

Inductive click :=
  | ClickAdd (date category amount description : string)
  | ClickView
  | ClickAnalyze
  | ClickUpload (chosen : chosen_file).

Record window := mk_window {
  store : database;
  transaction_display : list string
}.

Section Window.
Context {E : Engine}.

Definition on_click (c : click) (w : window) : window :=
  match c with
  | ClickAdd date category amount description =>
      mk_window
        (file (add_transaction date category amount description (store w)))
        (transaction_display w)
  | ClickView =>
      mk_window (store w)
        (display (view_transactions (store w) (transaction_display w)))
  | ClickAnalyze => w
  | ClickUpload chosen =>
      mk_window (file (upload_csv chosen (store w))) (transaction_display w)
  end.

Definition main_gui (clicks : list click) (db : database) : window :=
  fold_left (fun w c => on_click c w) clicks
            (mk_window (file (init_db db)) []).

End Window.

End Gui.

(* ================================================================== *)
(** * The HTTP query surface, [finance_tracker_api.py] *)
(* ================================================================== *)

Module Api.
Import PyLib Sqlite.

(** The decoded query string, in order. *)
Definition query_args : Type := list (string * string).

(** [request.args.get(key)]: the first value given for [key]. *)
Fixpoint args_get (key : string) (args : query_args) : option string :=
  match args with
  | (k, v) :: rest => if k =? key then Some v else args_get key rest
  | [] => None
  end.

(** [request.args.get(key, type=float)]: a value [float] rejects gives
    the default, [None]. *)
Definition args_get_float (key : string) (args : query_args)
  : option float :=
  match args_get key args with
  | Some v => py_float v
  | None => None
  end.

Inductive body :=
  | Records (l : list transaction)
  | MonthTotals (l : list (key * float))
  | ErrorMessage (text : string).

(** A JSON response with its status, or the exception the view function
    let through (which the server turns into a 500). *)
Inductive reply :=
  | Json (status : Z) (b : body)
  | Unhandled (e : exn).

Definition records (r : result (list transaction)) : reply :=
  match r with
  | Ok l => Json 200 (Records l)
  | Raise e => Unhandled e
  end.

Definition bad_request (text : string) : reply :=
  Json 400 (ErrorMessage text).

Definition get_all_transactions (db : database) : reply :=
  records (select_all db).

(** The view functions below test their parameters with [not]: [None]
    and the empty text are false, and so is the float zero.  Past the
    test a text parameter is a [str]; the branch for [None] that the
    [match] needs there is never taken. *)

Definition get_transactions_by_date_range (args : query_args)
                                          (db : database) : reply :=
  let start_date := args_get "start_date" args in
  let end_date := args_get "end_date" args in
  if negb (str_truthy start_date) || negb (str_truthy end_date) then
    bad_request "Both 'start_date' and 'end_date' are required"
  else
    match start_date, end_date with
    | Some s, Some e => records (select (date_between s e) db)
    | _, _ => bad_request "Both 'start_date' and 'end_date' are required"
    end.

Definition get_transactions_by_category (args : query_args)
                                        (db : database) : reply :=
  let category := args_get "category" args in
  if negb (str_truthy category) then
    bad_request "'category' parameter is required"
  else
    match category with
    | Some c => records (select (category_is c) db)
    | None => bad_request "'category' parameter is required"
    end.

Definition get_transactions_above_amount (args : query_args)
                                         (db : database) : reply :=
  match args_get_float "min_amount" args with
  | Some min_amount =>
      if negb (float_truthy min_amount) then
        bad_request "'min_amount' parameter is required"
      else records (select (amount_above (bind_float min_amount)) db)
  | None => bad_request "'min_amount' parameter is required"
  end.

Definition get_transactions_by_keyword (args : query_args)
                                       (db : database) : reply :=
  let keyword := args_get "keyword" args in
  if negb (str_truthy keyword) then
    bad_request "'keyword' parameter is required"
  else
    match keyword with
    | Some k => records (select_description_like ("%" ++ k ++ "%") db)
    | None => bad_request "'keyword' parameter is required"
    end.

Definition get_monthly_spending_summary {E : Engine} (db : database)
  : reply :=
  match select_monthly_summary db with
  | Ok l => Json 200 (MonthTotals l)
  | Raise e => Unhandled e
  end.

End Api.

(* ================================================================== *)
(** * Notions the statements use *)
(* ================================================================== *)

Module Notions.
Import PyLib Pandas Sqlite Gui Api.

(** A database with one record, of amount 5.0. *)
Definition lunch : transaction :=
  mk_transaction 1 "2024-05-01" "Food" (AReal (float_of_Z 5)) (Some "lunch").

Definition lunch_store : database := Some (mk_table [lunch] 1).


Definition frame_unchecked : DataFrame :=
  mk_frame ["description"; "date"; "note"; "amount"; "category"]
           [[PyStr "refund"; PyStr "01/05/2024"; PyInt 3;
             PyFloat (float_of_Z (-5)); PyStr "Food"];
            [PyStr "free"; PyStr "yesterday"; PyInt 4;
             PyFloat fzero; PyStr "Rent"]].



Definition frame_with_gap : DataFrame :=
  mk_frame ["date"; "category"; "amount"; "description"]
           [[PyStr "2024-05-02"; PyStr "Rent"; PyFloat (float_of_Z 447);
             PyStr "may"];
            [PyStr "2024-05-03"; PyStr "Food"; PyFloat fnan;
             PyStr "dinner"]].

(** A record of the test data, whose description starts with a capital
    letter. *)
Definition groceries : transaction :=
  mk_transaction 1 "2024-05-03" "Food" (AReal (float_of_Z 245))
                 (Some "Food transaction").

Definition groceries_store : database := Some (mk_table [groceries] 1).

(** Text with letters A-Z replaced by a-z. *)
Fixpoint fold_case (s : string) : string :=
  match s with
  | EmptyString => EmptyString
  | String c r => String (lower c) (fold_case r)
  end.




(** The first seven characters of a record's date, and the amounts of
    the records of a month, in table order. *)
Definition month_prefix (t : transaction) : string := substring 0 7 (date t).

Definition amounts_of_month (m : string) (l : list transaction)
  : list amount_cell :=
  map amount (filter (fun t => month_prefix t =? m) l).

(** The keys of a list of groups, and their strict ascending order. *)
Definition keys (g : list (key * list amount_cell)) : list key := map fst g.

Definition ascending (g : list (key * list amount_cell)) : Prop :=
  StronglySorted key_lt (keys g).

(** The amounts of the records whose month, as the engine reads it, is
    [k], in table order. *)
Definition members {E : Engine} (k : key) (l : list transaction)
  : list amount_cell :=
  map amount (filter (fun t => key_eqb (month_of t) k) l).

(** [g] groups the records [l]: ascending keys, each group with its
    members, every record in a group. *)
Definition grouped {E : Engine} (g : list (key * list amount_cell))
                   (l : list transaction) : Prop :=
  ascending g
  /\ (forall k ms, In (k, ms) g -> ms = members k l /\ ms <> [])
  /\ (forall r, In r l -> In (month_of r) (keys g)).

(** Two entries that pass [validate_date] and name no month. *)
Definition thirteenth : transaction :=
  mk_transaction 1 "2024-13-01" "Food" (AReal (float_of_Z 10)) (Some "a").

Definition fourteenth : transaction :=
  mk_transaction 2 "2024-14-01" "Rent" (AReal (float_of_Z 20)) (Some "b").

Definition no_month_store : database :=
  Some (mk_table [thirteenth; fourteenth] 2).

(** The first and the last day of May. *)
Definition may_store : table :=
  mk_table [mk_transaction 1 "2024-05-01" "Food" (AReal (float_of_Z 10))
                           (Some "a");
            mk_transaction 2 "2024-04-30" "Rent" (AReal (float_of_Z 7))
                           (Some "b");
            mk_transaction 3 "2024-05-31" "Rent" (AReal (float_of_Z 20))
                           None] 3.


(** Year, month and day in the order of the calendar. *)
Definition ymd_compare (a b : Z * Z * Z) : comparison :=
  let '(ya, ma, da) := a in
  let '(yb, mb, db) := b in
  match (ya ?= yb)%Z with
  | Eq => match (ma ?= mb)%Z with
          | Eq => (da ?= db)%Z
          | c => c
          end
  | c => c
  end.

Definition ymd_le (a b : Z * Z * Z) : Prop := ymd_compare a b <> Gt.

(** Rowids 1, 2, ... in table order, the last one recorded in [seq]. *)
Definition well_numbered (t : table) : Prop :=
  seq t = Z.of_nat (List.length (rows t))
  /\ forall i r, nth_error (rows t) i = Some r -> id r = (Z.of_nat i + 1)%Z.

Definition well_numbered_db (db : database) : Prop :=
  match db with
  | Some t => well_numbered t
  | None => True
  end.

(** A record as the manual entry accepts it. *)
Definition validated (r : transaction) : Prop :=
  validate_date (date r) = true
  /\ exists f, amount r = AReal f /\ fgt f fzero = true.

Definition real_amount (r : transaction) : Prop :=
  exists f, amount r = AReal f.

(** A run of clicks without "Upload CSV". *)
Definition no_upload (c : click) : Prop :=
  match c with
  | ClickUpload _ => False
  | _ => True
  end.

(** Text made of [%] only. *)
Fixpoint only_percent (k : string) : bool :=
  match k with
  | EmptyString => true
  | String c r => Ascii.eqb c "%" && only_percent r
  end.

(** A cell the store takes as a value other than NULL, and a cell it
    takes at all. *)
Definition bindable (v : pyval) : bool :=
  match v with
  | PyInt z => fits_int64 z
  | PyObject _ => false
  | PyStr _ | PyFloat _ => true
  end.

Definition filled (v : pyval) : bool :=
  match v with
  | PyFloat f => negb (is_nan f)
  | _ => bindable v
  end.

(** A row with a date, a category and an amount. *)
Definition storable (row : Row) : Prop :=
  exists p_date p_category p_amount p_description,
    getitem row "date" = Ok p_date /\ filled p_date = true
    /\ getitem row "category" = Ok p_category /\ filled p_category = true
    /\ getitem row "amount" = Ok p_amount /\ filled p_amount = true
    /\ getitem row "description" = Ok p_description
    /\ bindable p_description = true.

(** What a column keeps of a cell: the cell as SQLite binds it, then the
    affinity of the column. *)
Definition kept_as_text {E : Engine} (v : pyval) : option string :=
  match bind v with
  | Ok x => text_affinity x
  | Raise _ => None
  end.

Definition kept_as_real {E : Engine} (v : pyval) : option amount_cell :=
  match bind v with
  | Ok x => real_affinity x
  | Raise _ => None
  end.

(** The record with rowid [n] holds the cells of [row], and nothing
    else. *)
Definition holds {E : Engine} (n : Z) (row : Row) (r : transaction) : Prop :=
  exists p_date p_category p_amount p_description,
    getitem row "date" = Ok p_date
    /\ getitem row "category" = Ok p_category
    /\ getitem row "amount" = Ok p_amount
    /\ getitem row "description" = Ok p_description
    /\ id r = n
    /\ kept_as_text p_date = Some (date r)
    /\ kept_as_text p_category = Some (category r)
    /\ kept_as_real p_amount = Some (amount r)
    /\ kept_as_text p_description = description r.

(** [recs] are the records of the rows [l], in order, numbered from
    [n + 1]. *)
Inductive hold_from {E : Engine} (n : Z)
  : list Row -> list transaction -> Prop :=
  | hold_nil : hold_from n [] []
  | hold_cons : forall row l r recs,
      holds (n + 1) row r -> hold_from (n + 1) l recs ->
      hold_from n (row :: l) (r :: recs).

End Notions.

(* ================================================================== *)
(** * An engine to run the model on *)
(* ================================================================== *)

(** One engine that meets the interface, on which the model computes.
    Its [strftime_Ym] reads date-only text: a day past the end of its
    month rolls over into the next month, and anything else is no date
    (SQLite also reads times of day and Julian day numbers).  Its [sum]
    adds in row order, its REAL-to-TEXT conversion writes the exact
    decimal expansion (SQLite keeps 15 significant digits), and numeric
    text is what [float] reads, written with digits, sign, point and
    exponent only. *)

Module Sample.
Import PyLib Sqlite.

Definition digit_char (z : Z) : ascii := ascii_of_nat (48 + Z.to_nat z).

Definition two_digits (z : Z) : string :=
  String (digit_char (z / 10)) (String (digit_char (z mod 10)) EmptyString).

Definition strftime_Ym (s : string) : option string :=
  match parse_ymd s with
  | Some (y, m, d) =>
      if in_range 1 12 m && in_range 1 31 d then
        if (d <=? days_in_month y m)%Z then Some (substring 0 7 s)
        else Some (substring 0 5 s ++ two_digits (m + 1))%string
      else None
  | None => None
  end.

Definition amount_as_real (a : amount_cell) : float :=
  match a with
  | AReal f => f
  | AText _ => fzero
  end.

Definition sum (l : list amount_cell) : float :=
  fold_left (fun acc a => SFadd prec emax acc (amount_as_real a)) l fzero.

Definition plain_numeral (c : ascii) : bool :=
  is_digit c || is_space c
  || existsb (Ascii.eqb c) ["+"; "-"; "."; "e"; "E"]%char.

Definition text_to_real (s : string) : option float :=
  if forallb plain_numeral (list_ascii_of_string s) then py_float s
  else None.

Fixpoint drop_zeros (s : list ascii) : list ascii :=
  match s with
  | c :: r => if Ascii.eqb c "0" then drop_zeros r else s
  | [] => []
  end.

Fixpoint zeros (n : nat) : list ascii :=
  match n with
  | O => []
  | S n' => "0"%char :: zeros n'
  end.

(** The [k] fraction digits of [frac / 10^k], without trailing zeros. *)
Definition fraction_digits (frac : Z) (k : nat) : string :=
  let ds := list_ascii_of_string (text_of_Z frac) in
  let padded := zeros (k - List.length ds) ++ ds in
  match rev (drop_zeros (rev padded)) with
  | [] => "0"
  | l => string_of_list_ascii l
  end.

Definition real_to_text (f : float) : string :=
  match f with
  | S754_zero s => if s then "-0.0" else "0.0"
  | S754_infinity s => if s then "-Inf" else "Inf"
  | S754_nan => EmptyString
  | S754_finite s m e =>
      let k := Z.to_nat (- e) in
      let num := if (0 <=? e)%Z then (Zpos m * 2 ^ e)%Z
                 else (Zpos m * 5 ^ Z.of_nat k)%Z in
      ((if s then "-" else EmptyString)
       ++ text_of_Z (num / 10 ^ Z.of_nat k) ++ "."
       ++ fraction_digits (num mod 10 ^ Z.of_nat k) k)%string
  end.

Lemma days_in_month_le_31 : forall y m, (days_in_month y m <= 31)%Z.
Proof.
  intros y m. unfold days_in_month.
  destruct (m =? 2)%Z; [destruct (leap_year y); lia|].
  destruct ((m =? 4) || (m =? 6) || (m =? 9) || (m =? 11))%Z; lia.
Qed.

Lemma strftime_Ym_calendar :
  forall s, calendar_date s = true -> strftime_Ym s = Some (substring 0 7 s).
Proof.
  intros s. unfold calendar_date, strftime_Ym.
  destruct (parse_ymd s) as [[[y m] d]|]; [|discriminate].
  intros H. apply andb_true_iff in H as [Hm Hd].
  unfold in_range in *. apply andb_true_iff in Hd as [Hd1 Hd2].
  pose proof (days_in_month_le_31 y m) as Hle.
  rewrite Hm, Hd1, Hd2. simpl.
  replace (d <=? 31)%Z with true; [reflexivity|].
  symmetry. apply Z.leb_le. apply Z.leb_le in Hd2. lia.
Qed.

Lemma strftime_Ym_out_of_range :
  forall s, field_out_of_range s = true -> strftime_Ym s = None.
Proof.
  intros s. unfold field_out_of_range, strftime_Ym.
  destruct (parse_ymd s) as [[[y m] d]|]; [|discriminate].
  intros H. apply negb_true_iff in H. rewrite H. reflexivity.
Qed.

#[export] Instance engine : Engine := {|
  Sqlite.real_to_text := real_to_text;
  Sqlite.text_to_real := text_to_real;
  Sqlite.sum := sum;
  Sqlite.strftime_Ym := strftime_Ym;
  Sqlite.strftime_Ym_calendar := strftime_Ym_calendar;
  Sqlite.strftime_Ym_out_of_range := strftime_Ym_out_of_range
|}.

End Sample.

(* ================================================================== *)
(** * Properties of the store and of the desktop operations *)
(* ================================================================== *)

Import PyLib Pandas Sqlite Gui Api Notions.

(** ** Initialisation *)

(** C1. Whatever the database file holds, [init_db] leaves the table
    [transactions] in place and empty: listing right after it returns
    the empty sequence, and no record survives. *)
Theorem init_db_resets_store : forall db : database,
  init_db db
    = mk_outcome (Some empty_table)
                 [Print "Database initialized successfully."] None
  /\ select_all (file (init_db db)) = Ok []
  /\ get_all_transactions (file (init_db db)) = Json 200 (Records [])
  /\ forall r, ~ In r (stored (file (init_db db))).
Proof.
  intros db.
  assert (H : init_db db
              = mk_outcome (Some empty_table)
                  [Print "Database initialized successfully."] None).
  { unfold init_db, execute_schema, commit, close, connect.
    destruct db; reflexivity. }
  rewrite H. simpl. repeat split. intros r [].
Qed.

(** ** Manual entry *)

Lemma positive_is_not_nan : forall f, fgt f fzero = true -> is_nan f = false.
Proof. intros f H. destruct f; simpl in *; try reflexivity; discriminate. Qed.

Lemma validate_amount_parses :
  forall amount, validate_amount amount = true ->
  exists f, py_float amount = Some f /\ bind_float f = Some f.
Proof.
  intros amount H. unfold validate_amount in H.
  destruct (py_float amount) as [f|]; [|discriminate].
  exists f. split; [reflexivity|].
  unfold bind_float. now rewrite (positive_is_not_nan f H).
Qed.

Section ManualEntry.
Context {E : Engine}.

(** C2. [add_transaction] stops with a message and leaves the database
    as it was when the date or the amount fails its check; when both
    pass, the table gains exactly one record, holding the date, the
    category and the description as typed and the amount as [float]
    reads it. *)
Theorem add_transaction_checked :
  forall (date category amount description : string) (db : database),
  (validate_date date = false ->
     add_transaction date category amount description db
       = mk_outcome db
           [Prompt "Enter transaction date (YYYY-MM-DD): ";
            Print "Invalid date format. Please use YYYY-MM-DD."] None)
  /\ (validate_date date = true -> validate_amount amount = false ->
     add_transaction date category amount description db
       = mk_outcome db
           [Prompt "Enter transaction date (YYYY-MM-DD): ";
            Prompt "Enter transaction category (e.g., Food, Rent): ";
            Prompt "Enter transaction amount: ";
            Print "Invalid amount. Please enter a positive number."] None)
  /\ (validate_date date = true -> validate_amount amount = true ->
     forall t, db = Some t ->
     exists f, py_float amount = Some f
       /\ add_transaction date category amount description db
          = mk_outcome
              (Some (mk_table
                       (rows t ++ [mk_transaction (seq t + 1) date category
                                     (AReal f) (Some description)])
                       (seq t + 1)))
              [Prompt "Enter transaction date (YYYY-MM-DD): ";
               Prompt "Enter transaction category (e.g., Food, Rent): ";
               Prompt "Enter transaction amount: ";
               Prompt "Enter transaction description (optional): ";
               Print "Transaction added successfully!"] None).
Proof.
  intros date category amount description db. repeat split.
  - intros Hd. unfold add_transaction. rewrite Hd. reflexivity.
  - intros Hd Ha. unfold add_transaction. rewrite Hd, Ha. reflexivity.
  - intros Hd Ha t ->.
    destruct (validate_amount_parses amount Ha) as [f [Hf Hb]].
    exists f. split; [exact Hf|].
    unfold add_transaction. rewrite Hd, Ha, Hf. simpl.
    unfold execute_update, insert, connect. simpl.
    rewrite Hb. reflexivity.
Qed.

End ManualEntry.

(** The entry of the specification's example into a fresh store. *)
Lemma add_transaction_checked_witness :
  validate_date "2024-05-01" = true
  /\ validate_amount "40.33" = true
  /\ exists f, py_float "40.33" = Some f
     /\ add_transaction (E := Sample.engine)
          "2024-05-01" "Transportation" "40.33" "x" (Some empty_table)
        = mk_outcome
            (Some (mk_table
                     [mk_transaction 1 "2024-05-01" "Transportation"
                        (AReal f) (Some "x")] 1))
            [Prompt "Enter transaction date (YYYY-MM-DD): ";
             Prompt "Enter transaction category (e.g., Food, Rent): ";
             Prompt "Enter transaction amount: ";
             Prompt "Enter transaction description (optional): ";
             Print "Transaction added successfully!"] None.
Proof.
  split; [reflexivity|]. split; [reflexivity|].
  exact (proj2 (proj2 (add_transaction_checked (E := Sample.engine)
                         "2024-05-01" "Transportation" "40.33" "x"
                         (Some empty_table)))
               eq_refl eq_refl empty_table eq_refl).
Defined.

(** ** CSV import *)




Section CsvImport.
Context {E : Engine}.

(** Statements that run in a transaction leave the file alone. *)
Lemma execute_update_disk :
  forall stmt c r c', execute_update stmt c = (r, c') -> disk c' = disk c.
Proof.
  intros stmt c r c'. unfold execute_update.
  destruct (stmt (view c)); intros H; inversion H; reflexivity.
Qed.

Lemma insert_row_disk :
  forall row c r c', insert_row row c = (r, c') -> disk c' = disk c.
Proof.
  intros row c r c'. unfold insert_row, sbind, lift.
  destruct (getitem row "date"); [|intros H; now inversion H].
  destruct (getitem row "category"); [|intros H; now inversion H].
  destruct (getitem row "amount"); [|intros H; now inversion H].
  destruct (getitem row "description"); [|intros H; now inversion H].
  apply execute_update_disk.
Qed.

Lemma insert_rows_disk :
  forall l c r c', insert_rows l c = (r, c') -> disk c' = disk c.
Proof.
  induction l as [|row rest IH]; intros c r c'; simpl.
  - unfold sret. intros H. now inversion H.
  - unfold sbind. destruct (insert_row row c) as [[u|e] c1] eqn:Hrow.
    + intros H. rewrite (IH _ _ _ H). eapply insert_row_disk; eauto.
    + intros H. inversion H; subst. eapply insert_row_disk; eauto.
Qed.

(** The loop over [pre ++ row :: post] stops at [row] when [row] fails. *)
Lemma insert_rows_stops :
  forall pre row post c c1 e,
  insert_rows pre c = (Ok tt, c1) ->
  fst (insert_row row c1) = Raise e ->
  exists c2, insert_rows (pre ++ row :: post) c = (Raise e, c2).
Proof.
  induction pre as [|r0 pre IH]; intros row post c c1 e Hpre Hrow; simpl in *.
  - unfold sret in Hpre. inversion Hpre; subst.
    unfold sbind. destruct (insert_row row c1) as [[u|e'] c2]; simpl in Hrow.
    + discriminate.
    + inversion Hrow; subst. now exists c2.
  - unfold sbind in *. destruct (insert_row r0 c) as [[u|e'] c0].
    + eapply IH; eauto.
    + discriminate.
Qed.




(** C9. Once the columns are there, a row whose insertion fails leaves
    the database file exactly as it was before the import, the rows
    inserted before it included; the file changes only when every row
    was inserted, and then it holds what the connection saw after the
    last one. *)
Theorem upload_csv_all_or_nothing :
  forall (df : DataFrame) (db : database),
  forallb (has_column df) required_columns = true ->
  (forall pre row post conn e,
     iterrows df = pre ++ row :: post ->
     insert_rows pre (connect db) = (Ok tt, conn) ->
     fst (insert_row row conn) = Raise e ->
     upload_csv (Parsed df) db = mk_outcome db [upload_failed e] None)
  /\ (file (upload_csv (Parsed df) db) <> db ->
      exists conn,
        insert_rows (iterrows df) (connect db) = (Ok tt, conn)
        /\ file (upload_csv (Parsed df) db) = view conn).
Proof.
  intros df db Hcols. split.
  - intros pre row post conn e Hsplit Hpre Hrow.
    destruct (insert_rows_stops pre row post _ _ e Hpre Hrow) as [c2 Hstop].
    unfold upload_csv. rewrite Hcols. simpl.
    rewrite Hsplit, Hstop. unfold dropped.
    now rewrite (insert_rows_disk _ _ _ _ Hstop).
  - unfold upload_csv. rewrite Hcols. simpl.
    destruct (insert_rows (iterrows df) (connect db)) as [[[]|e] conn] eqn:Hrun;
      simpl; intros Hchanged.
    + exists conn. split; reflexivity.
    + exfalso. apply Hchanged. unfold dropped.
      now rewrite (insert_rows_disk _ _ _ _ Hrun).
Qed.

End CsvImport.


(** The second row of [frame_with_gap] has no amount: the first row is
    not kept either. *)
Lemma upload_csv_all_or_nothing_witness :
  upload_csv (E := Sample.engine) (Parsed frame_with_gap) lunch_store
    = mk_outcome lunch_store [upload_failed (not_null_failed "amount")] None.
Proof.
  eapply (proj1 (upload_csv_all_or_nothing (E := Sample.engine)
                   frame_with_gap lunch_store eq_refl)
                [_] _ []).
  - reflexivity.
  - reflexivity.
  - reflexivity.
Defined.

(** ** What the import stores *)

Section StoredRows.
Context {E : Engine}.

Lemma filled_kept_as_text :
  forall p, filled p = true ->
  exists v s, bind p = Ok v /\ text_affinity v = Some s.
Proof.
  intros [s|z|f|n] H; simpl in *.
  - now exists (Text s), s.
  - rewrite H. now exists (Integer z), (text_of_Z z).
  - unfold bind_float. apply negb_true_iff in H. rewrite H.
    now exists (Real f), (real_to_text f).
  - discriminate.
Qed.

Lemma filled_kept_as_real :
  forall p, filled p = true ->
  exists v a, bind p = Ok v /\ real_affinity v = Some a.
Proof.
  intros [s|z|f|n] H; simpl in *.
  - exists (Text s). simpl. destruct (text_to_real s) as [x|]; eauto.
  - rewrite H. now exists (Integer z), (AReal (float_of_Z z)).
  - unfold bind_float. apply negb_true_iff in H. rewrite H.
    now exists (Real f), (AReal f).
  - discriminate.
Qed.

Lemma bindable_binds :
  forall p, bindable p = true -> exists v, bind p = Ok v.
Proof.
  intros [s|z|f|n] H; simpl in *.
  - now exists (Text s).
  - rewrite H. now exists (Integer z).
  - destruct (bind_float f); eauto.
  - discriminate.
Qed.

(** One turn of the loop on a storable row. *)
Lemma insert_row_storable :
  forall row file0 t, storable row ->
  exists r,
    insert_row row (mk_connection file0 (Some t))
      = (Ok tt, mk_connection file0
                  (Some (mk_table (rows t ++ [r]) (seq t + 1))))
    /\ holds (seq t + 1) row r.
Proof.
  intros row file0 t (pd & pc & pa & pds & Hd & Fd & Hc & Fc & Ha & Fa & Hs & Fs).
  destruct (filled_kept_as_text pd Fd) as (vd & d & Bd & Td).
  destruct (filled_kept_as_text pc Fc) as (vc & c & Bc & Tc).
  destruct (filled_kept_as_real pa Fa) as (va & a & Ba & Ta).
  destruct (bindable_binds pds Fs) as (vs & Bs).
  exists (mk_transaction (seq t + 1) d c a (text_affinity vs)). split.
  - unfold insert_row, sbind, lift. rewrite Hd, Hc, Ha, Hs.
    unfold execute_update, insert. simpl.
    rewrite Bd, Bc, Ba, Bs. simpl. rewrite Td, Tc, Ta. reflexivity.
  - exists pd, pc, pa, pds. unfold kept_as_text, kept_as_real.
    rewrite Bd, Bc, Ba, Bs. simpl. repeat split; assumption.
Qed.

Lemma insert_rows_storable :
  forall l file0 t, Forall storable l ->
  exists recs,
    insert_rows l (mk_connection file0 (Some t))
      = (Ok tt, mk_connection file0
                  (Some (mk_table (rows t ++ recs)
                                  (seq t + Z.of_nat (List.length recs)))))
    /\ List.length recs = List.length l
    /\ hold_from (seq t) l recs.
Proof.
  induction l as [|row rest IH]; intros file0 t Hall.
  - exists []. simpl. rewrite app_nil_r, Z.add_0_r. destruct t.
    repeat split. constructor.
  - inversion Hall as [|? ? Hrow Hrest]; subst.
    destruct (insert_row_storable row file0 t Hrow) as (r & Hins & Hr).
    destruct (IH file0 (mk_table (rows t ++ [r]) (seq t + 1)) Hrest)
      as (recs & Hrun & Hlen & Hrecs).
    exists (r :: recs). simpl in *. unfold sbind. rewrite Hins, Hrun.
    rewrite <- app_assoc. simpl.
    replace (seq t + 1 + Z.of_nat (List.length recs))%Z
      with (seq t + Z.pos (Pos.of_succ_nat (List.length recs)))%Z by lia.
    repeat split.
    + now rewrite Hlen.
    + now constructor.
Qed.

Lemma hold_from_nth :
  forall l n recs i row,
  hold_from n l recs -> nth_error l i = Some row ->
  exists r, nth_error recs i = Some r /\ holds (n + 1 + Z.of_nat i) row r.
Proof.
  induction l as [|row0 rest IH]; intros n recs i row Hhold Hnth.
  - destruct i; discriminate.
  - inversion Hhold as [|? ? r0 recs0 Hr0 Hrest]; subst.
    destruct i as [|i]; simpl in *.
    + inversion Hnth; subst. exists r0. rewrite Z.add_0_r. now split.
    + destruct (IH _ _ _ _ Hrest Hnth) as (r & Hr & Hh).
      exists r. split; [exact Hr|].
      replace (n + 1 + Z.pos (Pos.of_succ_nat i))%Z
        with (n + 1 + 1 + Z.of_nat i)%Z by lia.
      exact Hh.
Qed.



End StoredRows.



(* ================================================================== *)
(** * Properties of the HTTP query surface *)
(* ================================================================== *)

(** ** Required parameters *)

(** C8. A request that lacks a required parameter is answered with
    status 400 and an error text, whatever the database file holds and
    even when it has no table to query. *)
Theorem missing_parameter_is_bad_request :
  forall (args : query_args) (db : database),
  (args_get "start_date" args = None \/ args_get "end_date" args = None ->
     get_transactions_by_date_range args db
       = Json 400
           (ErrorMessage "Both 'start_date' and 'end_date' are required"))
  /\ (args_get "category" args = None ->
     get_transactions_by_category args db
       = Json 400 (ErrorMessage "'category' parameter is required"))
  /\ (args_get "min_amount" args = None ->
     get_transactions_above_amount args db
       = Json 400 (ErrorMessage "'min_amount' parameter is required"))
  /\ (args_get "keyword" args = None ->
     get_transactions_by_keyword args db
       = Json 400 (ErrorMessage "'keyword' parameter is required")).
Proof.
  intros args db. repeat split.
  - intros [H|H]; unfold get_transactions_by_date_range; rewrite H; simpl.
    + reflexivity.
    + now rewrite orb_true_r.
  - intros H. unfold get_transactions_by_category. now rewrite H.
  - intros H. unfold get_transactions_above_amount, args_get_float.
    now rewrite H.
  - intros H. unfold get_transactions_by_keyword. now rewrite H.
Qed.

(** A date range without its end, asked of a file without table. *)
Lemma missing_parameter_is_bad_request_witness :
  get_transactions_by_date_range [("start_date", "2024-01-01")] None
    = Json 400 (ErrorMessage "Both 'start_date' and 'end_date' are required")
  /\ get_transactions_by_category [] lunch_store
     = Json 400 (ErrorMessage "'category' parameter is required")
  /\ get_transactions_above_amount [("keyword", "lunch")] lunch_store
     = Json 400 (ErrorMessage "'min_amount' parameter is required")
  /\ get_transactions_by_keyword [("category", "Food")] lunch_store
     = Json 400 (ErrorMessage "'keyword' parameter is required").
Proof.
  split; [|split; [|split]].
  - apply (proj1 (missing_parameter_is_bad_request
                    [("start_date", "2024-01-01")] None)).
    right. reflexivity.
  - apply (proj1 (proj2 (missing_parameter_is_bad_request [] lunch_store))).
    reflexivity.
  - apply (proj1 (proj2 (proj2 (missing_parameter_is_bad_request
                                  [("keyword", "lunch")] lunch_store)))).
    reflexivity.
  - apply (proj2 (proj2 (proj2 (missing_parameter_is_bad_request
                                  [("category", "Food")] lunch_store)))).
    reflexivity.
Defined.

(** ** The amount filter *)

(** C10. A [min_amount] that is given but is zero, or that [float] does
    not read, gets the answer of a request without [min_amount]. *)
Theorem zero_or_unreadable_min_amount :
  forall (args : query_args) (db : database) (v : string),
  args_get "min_amount" args = Some v ->
  py_float v = None \/ (exists f, py_float v = Some f /\ feq f fzero = true) ->
  get_transactions_above_amount args db
    = Json 400 (ErrorMessage "'min_amount' parameter is required")
  /\ get_transactions_above_amount args db
     = get_transactions_above_amount [] db.
Proof.
  intros args db v Hv Hbad.
  assert (H : get_transactions_above_amount args db
              = Json 400 (ErrorMessage "'min_amount' parameter is required")).
  { unfold get_transactions_above_amount, args_get_float. rewrite Hv.
    destruct Hbad as [Hnone|[f [Hf Hz]]].
    - now rewrite Hnone.
    - rewrite Hf. unfold float_truthy. now rewrite Hz. }
  split; [exact H|]. rewrite H. reflexivity.
Qed.

Lemma zero_or_unreadable_min_amount_witness :
  (get_transactions_above_amount [("min_amount", "0")] lunch_store
     = Json 400 (ErrorMessage "'min_amount' parameter is required")
   /\ get_transactions_above_amount [("min_amount", "0")] lunch_store
      = get_transactions_above_amount [] lunch_store)
  /\ (get_transactions_above_amount [("min_amount", "ten")] lunch_store
        = Json 400 (ErrorMessage "'min_amount' parameter is required")
      /\ get_transactions_above_amount [("min_amount", "ten")] lunch_store
         = get_transactions_above_amount [] lunch_store).
Proof.
  split.
  - apply (zero_or_unreadable_min_amount
             [("min_amount", "0")] lunch_store "0" eq_refl).
    right. exists fzero. split; reflexivity.
  - apply (zero_or_unreadable_min_amount
             [("min_amount", "ten")] lunch_store "ten" eq_refl).
    left. reflexivity.
Defined.

(** For any other [min_amount] the answer is the records whose amount is
    above it. *)
Lemma above_amount_filters :
  forall (args : query_args) (t : table) (m : float),
  args_get_float "min_amount" args = Some m ->
  feq m fzero = false ->
  get_transactions_above_amount args (Some t)
    = Json 200 (Records (filter (amount_above (bind_float m)) (rows t))).
Proof.
  intros args t m Hm Hz. unfold get_transactions_above_amount.
  rewrite Hm. unfold float_truthy. rewrite Hz. reflexivity.
Qed.

(** C6 at [min_amount=0]: the record of [lunch_store], of amount 5.0, is
    above 0 and is selected by the query itself, and the request is
    answered with status 400. *)
Theorem above_amount_zero_is_refused :
  args_get_float "min_amount" [("min_amount", "0")] = Some fzero
  /\ select (amount_above (bind_float fzero)) lunch_store = Ok [lunch]
  /\ get_transactions_above_amount [("min_amount", "0")] lunch_store
     = Json 400 (ErrorMessage "'min_amount' parameter is required").
Proof. repeat split. Qed.

(** ** The keyword filter *)

Lemma like_percent :
  forall p t,
  like (String "%" p) t
    = like p t || match t with
                  | String _ t' => like (String "%" p) t'
                  | EmptyString => false
                  end.
Proof. intros p t. destruct t; reflexivity. Qed.

Lemma like_char :
  forall c p t,
  Ascii.eqb c "%" = false ->
  like (String c p) t
    = match t with
      | String x t' =>
          (Ascii.eqb c "_" || Ascii.eqb (lower c) (lower x)) && like p t'
      | EmptyString => false
      end.
Proof. intros c p t H. simpl. rewrite H. reflexivity. Qed.

(** [%p] matches a text exactly when [p] matches one of its suffixes. *)
Lemma like_percent_suffix :
  forall p t,
  like (String "%" p) t = true
  <-> exists pre post, t = (pre ++ post)%string /\ like p post = true.
Proof.
  intros p t. induction t as [|c t IH].
  - rewrite like_percent, orb_false_r. split.
    + intros H. now exists EmptyString, EmptyString.
    + intros (pre & post & Heq & H).
      destruct pre; [|discriminate]. simpl in Heq. now subst.
  - rewrite like_percent. rewrite orb_true_iff, IH. split.
    + intros [H|(pre & post & Heq & H)].
      * now exists EmptyString, (String c t).
      * exists (String c pre), post. simpl. now rewrite Heq.
    + intros (pre & post & Heq & H). destruct pre as [|x pre]; simpl in Heq.
      * left. now subst.
      * right. inversion Heq; subst. now exists pre, post.
Qed.




Lemma string_length_append :
  forall a b, String.length (a ++ b) = (String.length a + String.length b)%nat.
Proof.
  induction a as [|c a IH]; intros b; simpl; [reflexivity|].
  now rewrite IH.
Qed.




(** ** The monthly summary *)

(** *** The order of keys *)

Lemma ascii_compare_refl : forall c, Ascii.compare c c = Eq.
Proof. intros c. unfold Ascii.compare. apply N.compare_refl. Qed.

Lemma string_compare_refl : forall s, String.compare s s = Eq.
Proof.
  induction s as [|c s IH]; simpl; [reflexivity|].
  now rewrite ascii_compare_refl.
Qed.

Lemma string_compare_trans :
  forall a b c,
  String.compare a b = Lt -> String.compare b c = Lt -> String.compare a c = Lt.
Proof.
  induction a as [|x a IH]; intros [|y b] [|z c]; simpl;
    try discriminate; try reflexivity.
  unfold Ascii.compare.
  destruct (N.compare_spec (N_of_ascii x) (N_of_ascii y)) as [Hxy|Hxy|Hxy];
    try discriminate;
    destruct (N.compare_spec (N_of_ascii y) (N_of_ascii z)) as [Hyz|Hyz|Hyz];
    try discriminate; intros H1 H2.
  - rewrite Hxy, Hyz, N.compare_refl. eapply IH; eauto.
  - rewrite Hxy. now apply N.compare_lt_iff in Hyz as ->.
  - rewrite <- Hyz. now apply N.compare_lt_iff in Hxy as ->.
  - assert (H : (N_of_ascii x < N_of_ascii z)%N) by lia.
    now apply N.compare_lt_iff in H as ->.
Qed.

Lemma key_compare_eq : forall a b, key_compare a b = Eq -> a = b.
Proof.
  intros [a|] [b|]; simpl; try discriminate; [|reflexivity].
  intros H. now rewrite (String.compare_eq_iff _ _ H).
Qed.

Lemma key_compare_refl : forall a, key_compare a a = Eq.
Proof. intros [a|]; simpl; [apply string_compare_refl|reflexivity]. Qed.

Lemma key_compare_gt : forall a b, key_compare a b = Gt -> key_lt b a.
Proof.
  unfold key_lt. intros [a|] [b|]; simpl; try discriminate; try reflexivity.
  intros H. rewrite String.compare_antisym, H. reflexivity.
Qed.

Lemma key_lt_trans : forall a b c, key_lt a b -> key_lt b c -> key_lt a c.
Proof.
  unfold key_lt. intros [a|] [b|] [c|]; simpl;
    try discriminate; try reflexivity.
  apply string_compare_trans.
Qed.

Lemma key_lt_irrefl : forall a, ~ key_lt a a.
Proof. unfold key_lt. intros a. rewrite key_compare_refl. discriminate. Qed.

Lemma key_eqb_eq : forall a b, key_eqb a b = true <-> a = b.
Proof.
  intros a b. unfold key_eqb. split.
  - destruct (key_compare a b) eqn:H; try discriminate.
    intros _. now apply key_compare_eq.
  - intros ->. now rewrite key_compare_refl.
Qed.

(** *** Groups *)

Lemma add_to_group_keys :
  forall k a g k',
  In k' (keys (add_to_group k a g)) <-> k' = k \/ In k' (keys g).
Proof.
  intros k a g k'. induction g as [|[k0 ms] g IH]; simpl.
  - intuition.
  - destruct (key_compare k k0) eqn:Hc; simpl.
    + apply key_compare_eq in Hc. subst. intuition.
    + intuition.
    + unfold keys in IH. rewrite IH. intuition.
Qed.

Lemma add_to_group_ascending :
  forall k a g, ascending g -> ascending (add_to_group k a g).
Proof.
  unfold ascending. intros k a g. induction g as [|[k0 ms] g IH]; simpl.
  - intros _. repeat constructor.
  - intros Hs. inversion Hs as [|? ? Hrest Hall]; subst.
    destruct (key_compare k k0) eqn:Hc; simpl.
    + now constructor.
    + constructor; [exact Hs|]. constructor; [exact Hc|].
      eapply Forall_impl; [|exact Hall].
      intros x Hx. eapply key_lt_trans; eauto.
    + constructor; [now apply IH|].
      apply Forall_forall. intros x Hx.
      apply (add_to_group_keys k a g x) in Hx as [->|Hx].
      * now apply key_compare_gt.
      * rewrite Forall_forall in Hall. now apply Hall.
Qed.

Lemma ascending_head_not_in_tail :
  forall k ms g, ascending ((k, ms) :: g) -> ~ In k (keys g).
Proof.
  unfold ascending. simpl. intros k ms g Hs Hin.
  inversion Hs as [|? ? _ Hall]; subst.
  rewrite Forall_forall in Hall. exact (key_lt_irrefl k (Hall k Hin)).
Qed.

(** Where the members of a group of [add_to_group k a g] come from. *)
Lemma add_to_group_members :
  forall k a g k' ms',
  ascending g ->
  In (k', ms') (add_to_group k a g) ->
  (k' <> k /\ In (k', ms') g)
  \/ (k' = k /\ exists ms, In (k, ms) g /\ ms' = ms ++ [a])
  \/ (k' = k /\ ms' = [a] /\ ~ In k (keys g)).
Proof.
  intros k a g k' ms'. induction g as [|[k0 ms] g IH]; simpl; intros Hs Hin.
  - destruct Hin as [Heq|[]]. injection Heq as Hk Hm. subst k' ms'.
    right. right. tauto.
  - assert (Hrest : ascending g)
      by (unfold ascending in *; simpl in Hs; now inversion Hs).
    pose proof (ascending_head_not_in_tail _ _ _ Hs) as Hfresh.
    destruct (key_compare k k0) eqn:Hc.
    + apply key_compare_eq in Hc. subst k0.
      destruct Hin as [Heq|Hin].
      * injection Heq as Hk Hm. subst k' ms'.
        right. left. split; [reflexivity|]. exists ms. tauto.
      * left. split; [|now right].
        intros ->. apply Hfresh. apply in_map_iff. now exists (k, ms').
    + destruct Hin as [Heq|Hin].
      * injection Heq as Hk Hm. subst k' ms'. right. right. repeat split.
        intros [Hk|Hk].
        -- subst. now rewrite key_compare_refl in Hc.
        -- unfold ascending in Hs. simpl in Hs.
           inversion Hs as [|? ? _ Hall]; subst.
           rewrite Forall_forall in Hall.
           exact (key_lt_irrefl k (key_lt_trans _ _ _ Hc (Hall k Hk))).
      * left. split; [|exact Hin].
        intros ->. destruct Hin as [Heq|Hin].
        -- injection Heq as Hk Hm. subst k0.
           now rewrite key_compare_refl in Hc.
        -- unfold ascending in Hs. simpl in Hs.
           inversion Hs as [|? ? _ Hall]; subst.
           rewrite Forall_forall in Hall.
           assert (Hk : In k (keys g))
             by (apply in_map_iff; now exists (k, ms')).
           exact (key_lt_irrefl k (key_lt_trans _ _ _ Hc (Hall k Hk))).
    + assert (Hne : k0 <> k)
        by (intros ->; now rewrite key_compare_refl in Hc).
      destruct Hin as [Heq|Hin].
      * injection Heq as Hk Hm. subst k' ms'.
        left. split; [exact Hne|now left].
      * destruct (IH Hrest Hin) as [[Hk Hg]|[[Hk (m0 & Hg & Hms)]|(Hk & Hms & Hn)]].
        -- left. split; [exact Hk|now right].
        -- right. left. split; [exact Hk|]. exists m0. split; [now right|exact Hms].
        -- right. right. repeat split; try assumption.
           intros [Hh|Hh]; [now apply Hne|now apply Hn].
Qed.

Section MonthlySummary.
Context {E : Engine}.

Lemma members_app :
  forall k l r,
  members k (l ++ [r])
    = members k l ++ (if key_eqb (month_of r) k then [amount r] else []).
Proof.
  intros k l r. unfold members. rewrite filter_app, map_app. simpl.
  destruct (key_eqb (month_of r) k); reflexivity.
Qed.

Lemma members_none :
  forall k l, (forall r, In r l -> month_of r <> k) -> members k l = [].
Proof.
  intros k l H. unfold members. induction l as [|r l IH]; simpl.
  - reflexivity.
  - destruct (key_eqb (month_of r) k) eqn:Hk.
    + apply key_eqb_eq in Hk. exfalso. apply (H r); [now left|exact Hk].
    + apply IH. intros r' Hr'. apply H. now right.
Qed.

Lemma members_some :
  forall k l, members k l <> [] -> exists r, In r l /\ month_of r = k.
Proof.
  intros k l. unfold members. induction l as [|r l IH]; simpl.
  - intros H. now contradiction H.
  - destruct (key_eqb (month_of r) k) eqn:Hk.
    + intros _. apply key_eqb_eq in Hk. exists r. split; [now left|exact Hk].
    + intros H. destruct (IH H) as (r' & Hin & Hm). exists r'. split; [now right|exact Hm].
Qed.

Lemma key_eqb_neq : forall a b, a <> b -> key_eqb a b = false.
Proof.
  intros a b H. destruct (key_eqb a b) eqn:Hk; [|reflexivity].
  now apply key_eqb_eq in Hk.
Qed.

(** One more record keeps the groups in order and complete. *)
Lemma grouped_step :
  forall g l r,
  grouped g l -> grouped (add_to_group (month_of r) (amount r) g) (l ++ [r]).
Proof.
  intros g l r (Hasc & Hmem & Hall). split; [|split].
  - now apply add_to_group_ascending.
  - intros k ms Hin. rewrite members_app.
    destruct (add_to_group_members _ _ _ _ _ Hasc Hin)
      as [[Hk Hg]|[[Hk (m0 & Hg & Hms)]|(Hk & Hms & Hn)]].
    + destruct (Hmem _ _ Hg) as [Heq Hne].
      rewrite key_eqb_neq by congruence. rewrite app_nil_r. now split.
    + subst k ms. destruct (Hmem _ _ Hg) as [Heq Hne].
      rewrite (proj2 (key_eqb_eq _ _) eq_refl). split; [now rewrite <- Heq|].
      intros H. now apply app_eq_nil in H as [_ H].
    + subst k ms. rewrite (proj2 (key_eqb_eq _ _) eq_refl).
      rewrite members_none; [split; [reflexivity|discriminate]|].
      intros r' Hr' Heq. apply Hn. rewrite <- Heq. now apply Hall.
  - intros r' Hr'. apply add_to_group_keys.
    apply in_app_or in Hr' as [Hr'|[->|[]]].
    + right. now apply Hall.
    + now left.
Qed.

Lemma grouped_fold :
  forall l2 g l1,
  grouped g l1 ->
  grouped (fold_left (fun groups t =>
                        add_to_group (month_of t) (amount t) groups) l2 g)
          (l1 ++ l2).
Proof.
  induction l2 as [|r l2 IH]; intros g l1 H; simpl.
  - now rewrite app_nil_r.
  - replace (l1 ++ r :: l2) with ((l1 ++ [r]) ++ l2)
      by (now rewrite <- app_assoc).
    apply IH. now apply grouped_step.
Qed.

Lemma group_by_month_grouped : forall l, grouped (group_by_month l) l.
Proof.
  intros l. unfold group_by_month.
  apply (grouped_fold l [] []). split; [|split].
  - constructor.
  - intros k ms [].
  - intros r [].
Qed.

(** The groups are exactly the keys that occur, each with its members. *)
Lemma group_by_month_spec :
  forall l k ms,
  In (k, ms) (group_by_month l)
  <-> (exists r, In r l /\ month_of r = k) /\ ms = members k l.
Proof.
  intros l k ms. destruct (group_by_month_grouped l) as (Hasc & Hmem & Hall).
  split.
  - intros Hin. destruct (Hmem _ _ Hin) as [Heq Hne]. split; [|exact Heq].
    apply members_some. now rewrite <- Heq.
  - intros [(r & Hr & Hk) Heq]. subst k.
    apply Hall in Hr. apply in_map_iff in Hr as ([k' ms'] & Hfst & Hin).
    simpl in Hfst. subst k'.
    destruct (Hmem _ _ Hin) as [Heq' _]. now rewrite Heq, <- Heq'.
Qed.

(** On calendar dates the engine's month is the first seven characters. *)
Lemma month_of_calendar :
  forall r, calendar_date (date r) = true -> month_of r = Some (month_prefix r).
Proof. intros r H. unfold month_of, month_prefix. now apply strftime_Ym_calendar. Qed.

Lemma members_calendar :
  forall m l,
  Forall (fun r => calendar_date (date r) = true) l ->
  members (Some m) l = amounts_of_month m l.
Proof.
  intros m l Hcal. unfold members, amounts_of_month. f_equal.
  apply filter_ext_in. intros r Hr.
  rewrite Forall_forall in Hcal. rewrite (month_of_calendar r (Hcal r Hr)).
  destruct (month_prefix r =? m) eqn:Hm.
  - apply String.eqb_eq in Hm. subst. now apply key_eqb_eq.
  - apply key_eqb_neq. intros H. inversion H; subst.
    now rewrite String.eqb_refl in Hm.
Qed.

(** C5, amended. When every stored date is a calendar date written
    [YYYY-MM-DD], the monthly summary has one pair per seven-character
    date prefix that occurs, the pairs come in ascending order of the
    prefix, and each total is the engine's sum over the amounts of the
    records with that prefix, taken in table order. *)
Theorem monthly_summary_by_prefix :
  forall t : table,
  Forall (fun r => calendar_date (date r) = true) (rows t) ->
  exists l,
    get_monthly_spending_summary (Some t) = Json 200 (MonthTotals l)
    /\ StronglySorted key_lt (map fst l)
    /\ forall k total,
         In (k, total) l
         <-> exists m,
               k = Some m
               /\ (exists r, In r (rows t) /\ month_prefix r = m)
               /\ total = sum (amounts_of_month m (rows t)).
Proof.
  intros t Hcal.
  exists (map (fun g => (fst g, sum (snd g))) (group_by_month (rows t))).
  split; [reflexivity|]. split.
  - rewrite map_map. simpl.
    destruct (group_by_month_grouped (rows t)) as (Hasc & _). exact Hasc.
  - intros k total. rewrite in_map_iff. split.
    + intros ([k' ms] & Heq & Hin). simpl in Heq.
      injection Heq as Hk Ht. subst k' total.
      apply group_by_month_spec in Hin as [(r & Hr & Hm) Hms].
      pose proof Hcal as Hall. rewrite Forall_forall in Hall.
      rewrite (month_of_calendar r (Hall r Hr)) in Hm.
      exists (month_prefix r). split; [now symmetry|].
      split; [now exists r|].
      subst k ms. now rewrite members_calendar.
    + intros (m & -> & (r & Hr & Hm) & ->).
      exists (Some m, members (Some m) (rows t)). split.
      * simpl. now rewrite members_calendar.
      * apply group_by_month_spec. split; [|reflexivity].
        exists r. split; [exact Hr|].
        rewrite Forall_forall in Hcal.
        rewrite (month_of_calendar r (Hcal r Hr)). now rewrite Hm.
Qed.

(** Whatever the engine, dates whose month field is out of range fall
    into one group, the one without month. *)
Lemma out_of_range_dates_share_a_group :
  forall l,
  l <> [] ->
  Forall (fun r => field_out_of_range (date r) = true) l ->
  group_by_month l = [(None, map amount l)].
Proof.
  intros l Hne Hall.
  assert (Hm : forall r, In r l -> month_of r = None).
  { rewrite Forall_forall in Hall. intros r Hr.
    unfold month_of. now apply strftime_Ym_out_of_range, Hall. }
  assert (Hmem : members None l = map amount l).
  { unfold members. f_equal. clear Hne Hall.
    induction l as [|r l IH]; simpl; [reflexivity|].
    rewrite (Hm r (or_introl eq_refl)). simpl.
    f_equal. apply IH. intros r' Hr'. apply Hm. now right. }
  destruct (group_by_month_grouped l) as (Hasc & Hin & Hall').
  destruct (group_by_month l) as [|[k ms] g] eqn:Hg.
  - destruct l as [|r l]; [contradiction|].
    destruct (Hall' r (or_introl eq_refl)).
  - assert (Hk : forall k' ms', In (k', ms') ((k, ms) :: g) -> k' = None).
    { intros k' ms' H. rewrite <- Hg in H.
      apply group_by_month_spec in H as [(r & Hr & Hk) _].
      rewrite <- Hk. now apply Hm. }
    assert (k = None) by (apply (Hk k ms); now left). subst k.
    destruct g as [|[k1 ms1] g].
    + destruct (Hin None ms (or_introl eq_refl)) as [-> _].
      now rewrite Hmem.
    + assert (k1 = None) by (apply (Hk k1 ms1); right; now left). subst k1.
      unfold ascending in Hasc. simpl in Hasc.
      inversion Hasc as [|? ? _ Hlt]; subst.
      inversion Hlt as [|? ? Hbad _]; subst. discriminate Hbad.
Qed.

End MonthlySummary.

(** The first and the last day of May fall into the group [2024-05]. *)
Lemma monthly_summary_by_prefix_witness :
  get_monthly_spending_summary (E := Sample.engine) (Some may_store)
    = Json 200 (MonthTotals [(Some "2024-04", float_of_Z 7);
                             (Some "2024-05", float_of_Z 30)])
  /\ exists l,
       get_monthly_spending_summary (E := Sample.engine) (Some may_store)
         = Json 200 (MonthTotals l)
       /\ StronglySorted key_lt (map fst l)
       /\ forall k total,
            In (k, total) l
            <-> exists m,
                  k = Some m
                  /\ (exists r, In r (rows may_store) /\ month_prefix r = m)
                  /\ total = Sample.sum (amounts_of_month m (rows may_store)).
Proof.
  split; [reflexivity|].
  apply (monthly_summary_by_prefix (E := Sample.engine) may_store).
  repeat constructor.
Defined.

(** With any engine, the entries of [no_month_store] form one group. *)
Lemma no_month_store_summary :
  forall E : Engine,
  get_monthly_spending_summary (E := E) no_month_store
    = Json 200 (MonthTotals [(None, sum [AReal (float_of_Z 10);
                                         AReal (float_of_Z 20)])]).
Proof.
  intros E. unfold get_monthly_spending_summary, select_monthly_summary.
  unfold no_month_store.
  change (rows (mk_table [thirteenth; fourteenth] 2))
    with [thirteenth; fourteenth].
  rewrite (out_of_range_dates_share_a_group [thirteenth; fourteenth]).
  - reflexivity.
  - discriminate.
  - repeat constructor.
Qed.

(** C5 as stated fails on [no_month_store]: its two dates pass
    [validate_date] and are entered by [add_transaction], their first
    seven characters differ, and the summary has a single pair, without
    month. *)
Lemma monthly_summary_without_month :
  validate_date "2024-13-01" = true
  /\ validate_date "2024-14-01" = true
  /\ file (add_transaction (E := Sample.engine) "2024-14-01" "Rent" "20" "b"
             (file (add_transaction (E := Sample.engine)
                      "2024-13-01" "Food" "10" "a" (Some empty_table))))
     = no_month_store
  /\ month_prefix thirteenth = "2024-13"
  /\ month_prefix fourteenth = "2024-14"
  /\ get_monthly_spending_summary (E := Sample.engine) no_month_store
     = Json 200 (MonthTotals [(None, float_of_Z 30)]).
Proof. repeat split. Qed.

(* ================================================================== *)
(** * Further properties of the desktop operations *)
(* ================================================================== *)

(** ** The shape [validate_date] accepts *)






(** ** What the two writers do to the file *)

Section Writers.
Context {E : Engine}.

Lemma add_transaction_valid_file :
  forall date category amount description t f,
  validate_date date = true ->
  py_float amount = Some f ->
  fgt f fzero = true ->
  add_transaction date category amount description (Some t)
    = mk_outcome
        (Some (mk_table
                 (rows t ++ [mk_transaction (seq t + 1) date category
                               (AReal f) (Some description)])
                 (seq t + 1)))
        [Prompt "Enter transaction date (YYYY-MM-DD): ";
         Prompt "Enter transaction category (e.g., Food, Rent): ";
         Prompt "Enter transaction amount: ";
         Prompt "Enter transaction description (optional): ";
         Print "Transaction added successfully!"] None.
Proof.
  intros date category amount description t f Hd Hf Hpos.
  unfold add_transaction, validate_amount. rewrite Hd, Hf, Hpos. simpl.
  unfold execute_update, insert, connect. simpl.
  unfold bind_float. rewrite (positive_is_not_nan f Hpos). reflexivity.
Qed.

Lemma add_transaction_no_table :
  forall date category amount description,
  file (add_transaction date category amount description None) = None
  /\ uncaught (add_transaction date category amount description None) = None.
Proof.
  intros date category amount description.
  unfold add_transaction, validate_amount.
  destruct (validate_date date); simpl; [|now split].
  destruct (py_float amount) as [f|]; simpl; [|now split].
  destruct (fgt f fzero); simpl; now split.
Qed.

Lemma add_transaction_appends_validated_file :
  forall date category amount description db,
  file (add_transaction date category amount description db) = db
  \/ exists t f,
       db = Some t
       /\ validate_date date = true
       /\ py_float amount = Some f
       /\ fgt f fzero = true
       /\ file (add_transaction date category amount description db)
          = Some (mk_table
                    (rows t ++ [mk_transaction (seq t + 1) date category
                                  (AReal f) (Some description)])
                    (seq t + 1)).
Proof.
  intros date category amount description [t|].
  - destruct (validate_date date) eqn:Hd.
    + destruct (py_float amount) as [f|] eqn:Hf.
      * destruct (fgt f fzero) eqn:Hpos.
        -- rewrite (add_transaction_valid_file _ _ _ _ _ _ Hd Hf Hpos).
           right. exists t, f. now repeat split.
        -- unfold add_transaction, validate_amount.
           rewrite Hd, Hf, Hpos. now left.
      * unfold add_transaction, validate_amount. rewrite Hd, Hf. now left.
    + unfold add_transaction. rewrite Hd. now left.
  - left. apply add_transaction_no_table.
Qed.

Lemma add_transaction_catches :
  forall date category amount description db,
  uncaught (add_transaction date category amount description db) = None.
Proof.
  intros date category amount description [t|];
    [|apply add_transaction_no_table].
  destruct (validate_date date) eqn:Hd.
  - destruct (py_float amount) as [f|] eqn:Hf.
    + destruct (fgt f fzero) eqn:Hpos.
      * now rewrite (add_transaction_valid_file _ _ _ _ _ _ Hd Hf Hpos).
      * unfold add_transaction, validate_amount. now rewrite Hd, Hf, Hpos.
    + unfold add_transaction, validate_amount. now rewrite Hd, Hf.
  - unfold add_transaction. now rewrite Hd.
Qed.

(** X2. Whatever is typed, [add_transaction] lets no exception through
    and never creates, drops or rewrites the table: it leaves the file
    as it is, or appends under the next rowid one record whose date has
    passed [validate_date] and whose amount is a float above zero. *)
Theorem add_transaction_appends_validated :
  forall (date category amount description : string) (db : database),
  uncaught (add_transaction date category amount description db) = None
  /\ (file (add_transaction date category amount description db) = db
      \/ exists t f,
           db = Some t
           /\ validate_date date = true
           /\ py_float amount = Some f
           /\ fgt f fzero = true
           /\ file (add_transaction date category amount description db)
              = Some (mk_table
                        (rows t ++ [mk_transaction (seq t + 1) date category
                                      (AReal f) (Some description)])
                        (seq t + 1))).
Proof.
  intros date category amount description db. split.
  - apply add_transaction_catches.
  - apply add_transaction_appends_validated_file.
Qed.

(** A successful INSERT appends one row under the next rowid. *)
Lemma insert_appends :
  forall pd pc pa ps db db',
  insert pd pc pa ps db = Ok db' ->
  exists t r,
    db = Some t
    /\ db' = Some (mk_table (rows t ++ [r]) (seq t + 1))
    /\ id r = (seq t + 1)%Z.
Proof.
  intros pd pc pa ps [t|] db'; simpl; [|discriminate].
  unfold rbind.
  destruct (bind pd) as [vd|]; [|discriminate].
  destruct (bind pc) as [vc|]; [|discriminate].
  destruct (bind pa) as [va|]; [|discriminate].
  destruct (bind ps) as [vs|]; [|discriminate].
  destruct (text_affinity vd) as [d|]; [|discriminate].
  destruct (text_affinity vc) as [c|]; [|discriminate].
  destruct (real_affinity va) as [a|]; [|discriminate].
  intros H. inversion H; subst. eexists t, _. repeat split.
Qed.

Lemma insert_row_appends :
  forall row c c',
  insert_row row c = (Ok tt, c') ->
  exists t r,
    view c = Some t
    /\ c' = mk_connection (disk c)
              (Some (mk_table (rows t ++ [r]) (seq t + 1)))
    /\ id r = (seq t + 1)%Z.
Proof.
  intros row c c'. unfold insert_row, sbind, lift.
  destruct (getitem row "date") as [pd|]; [|discriminate].
  destruct (getitem row "category") as [pc|]; [|discriminate].
  destruct (getitem row "amount") as [pa|]; [|discriminate].
  destruct (getitem row "description") as [ps|]; [|discriminate].
  unfold execute_update.
  destruct (insert pd pc pa ps (view c)) as [db'|] eqn:Hins; [|discriminate].
  intros H. inversion H; subst.
  destruct (insert_appends _ _ _ _ _ _ Hins) as (t & r & Hv & -> & Hid).
  now exists t, r.
Qed.

(** The loop, when it ends well on a table, has appended one row per
    frame row under consecutive rowids. *)
Lemma insert_rows_appends :
  forall l file0 t c',
  insert_rows l (mk_connection file0 (Some t)) = (Ok tt, c') ->
  exists recs,
    c' = mk_connection file0
           (Some (mk_table (rows t ++ recs)
                           (seq t + Z.of_nat (List.length recs))))
    /\ List.length recs = List.length l
    /\ forall i r, nth_error recs i = Some r
                   -> id r = (seq t + 1 + Z.of_nat i)%Z.
Proof.
  induction l as [|row rest IH]; intros file0 t c'; simpl.
  - unfold sret. intros H. inversion H; subst. exists [].
    simpl. rewrite app_nil_r, Z.add_0_r. destruct t. repeat split.
    intros [|i] r; discriminate.
  - unfold sbind.
    destruct (insert_row row (mk_connection file0 (Some t)))
      as [[[]|e] c1] eqn:Hrow; [|discriminate].
    destruct (insert_row_appends _ _ _ Hrow) as (t0 & r & Hv & -> & Hid).
    simpl in Hv. inversion Hv; subst t0. simpl.
    intros Hrest. destruct (IH _ _ _ Hrest) as (recs & -> & Hlen & Hids).
    exists (r :: recs). simpl in *. rewrite <- app_assoc. simpl.
    replace (seq t + 1 + Z.of_nat (List.length recs))%Z
      with (seq t + Z.pos (Pos.of_succ_nat (List.length recs)))%Z by lia.
    repeat split; [now rewrite Hlen|].
    intros [|i] r0 Hnth; simpl in Hnth.
    + inversion Hnth; subst. now rewrite Z.add_0_r.
    + rewrite (Hids i r0 Hnth). lia.
Qed.

(** On a file without table the loop ends well only for no row. *)
Lemma insert_rows_no_table :
  forall l file0 c',
  insert_rows l (mk_connection file0 None) = (Ok tt, c') ->
  l = [] /\ c' = mk_connection file0 None.
Proof.
  intros [|row rest] file0 c'; simpl.
  - unfold sret. intros H. now inversion H.
  - unfold sbind.
    destruct (insert_row row (mk_connection file0 None))
      as [[[]|e] c1] eqn:Hrow; [|discriminate].
    destruct (insert_row_appends _ _ _ Hrow) as (t0 & r & Hv & _).
    discriminate.
Qed.

Lemma upload_csv_file :
  forall chosen db,
  file (upload_csv chosen db) = db
  \/ exists df t recs,
       chosen = Parsed df
       /\ db = Some t
       /\ file (upload_csv chosen db)
          = Some (mk_table (rows t ++ recs)
                           (seq t + Z.of_nat (List.length recs)))
       /\ List.length recs = List.length (data df)
       /\ forall i r, nth_error recs i = Some r
                      -> id r = (seq t + 1 + Z.of_nat i)%Z.
Proof.
  intros [|e|df] db; unfold upload_csv; try (left; reflexivity).
  destruct (forallb (has_column df) required_columns);
    cbn [negb]; [|left; reflexivity].
  destruct (insert_rows (iterrows df) (connect db)) as [[[]|e] c'] eqn:Hrun;
    cbn [file].
  - destruct db as [t|]; unfold connect in Hrun.
    + destruct (insert_rows_appends _ _ _ _ Hrun) as (recs & -> & Hlen & Hids).
      right. exists df, t, recs. simpl. repeat split; try assumption.
      rewrite Hlen. unfold iterrows. apply length_map.
    + destruct (insert_rows_no_table _ _ _ Hrun) as [_ ->]. now left.
  - left. unfold dropped. now rewrite (insert_rows_disk _ _ _ _ Hrun).
Qed.

(** X3. Whatever file is chosen, [upload_csv] lets no exception through
    and never creates, drops or rewrites the table: it leaves the
    database file as it is, or appends exactly one record per data row
    of the frame, under consecutive rowids. *)
Theorem upload_csv_appends_all_or_nothing :
  forall (chosen : chosen_file) (db : database),
  uncaught (upload_csv chosen db) = None
  /\ (file (upload_csv chosen db) = db
      \/ exists df t recs,
           chosen = Parsed df
           /\ db = Some t
           /\ file (upload_csv chosen db)
              = Some (mk_table (rows t ++ recs)
                               (seq t + Z.of_nat (List.length recs)))
           /\ List.length recs = List.length (data df)
           /\ forall i r, nth_error recs i = Some r
                          -> id r = (seq t + 1 + Z.of_nat i)%Z).
Proof.
  intros chosen db. split; [|apply upload_csv_file].
  destruct chosen as [|e|df]; unfold upload_csv; try reflexivity.
  destruct (forallb (has_column df) required_columns);
    cbn [negb]; [|reflexivity].
  destruct (insert_rows (iterrows df) (connect db)) as [[[]|e] c'];
    reflexivity.
Qed.

End Writers.

(** ** A session of the window *)

Lemma well_numbered_append :
  forall t recs,
  well_numbered t ->
  (forall i r, nth_error recs i = Some r
               -> id r = (seq t + 1 + Z.of_nat i)%Z) ->
  well_numbered (mk_table (rows t ++ recs)
                          (seq t + Z.of_nat (List.length recs))).
Proof.
  intros t recs [Hseq Hids] Hnew. split; simpl.
  - rewrite length_app, Hseq. lia.
  - intros i r Hnth.
    destruct (Nat.lt_ge_cases i (List.length (rows t))) as [Hlt|Hge].
    + rewrite nth_error_app1 in Hnth by exact Hlt. now apply Hids.
    + rewrite nth_error_app2 in Hnth by exact Hge.
      rewrite (Hnew _ _ Hnth), Hseq. lia.
Qed.

Lemma well_numbered_NoDup :
  forall t, well_numbered t -> NoDup (map id (rows t)).
Proof.
  intros t [_ Hids]. apply NoDup_nth_error. intros i j Hi Heq.
  rewrite length_map in Hi.
  rewrite !nth_error_map in Heq.
  destruct (nth_error (rows t) i) as [r|] eqn:Hr.
  - destruct (nth_error (rows t) j) as [r'|] eqn:Hr'; [|discriminate].
    simpl in Heq. inversion Heq as [Hid].
    rewrite (Hids _ _ Hr), (Hids _ _ Hr') in Hid. lia.
  - apply nth_error_None in Hr. lia.
Qed.

Section Session.
Context {E : Engine}.

Lemma on_click_well_numbered :
  forall c w t,
  store w = Some t -> well_numbered t ->
  exists t', store (on_click c w) = Some t' /\ well_numbered t'.
Proof.
  intros [date category amount description| | |chosen] w t Hs Hw; simpl.
  - destruct (add_transaction_appends_validated_file date category amount
                description (store w)) as [->|(t0 & f & Hdb & _ & _ & _ & ->)].
    + now exists t.
    + rewrite Hs in Hdb. inversion Hdb; subst t0. eexists. split; [reflexivity|].
      apply (well_numbered_append t [_] Hw).
      intros [|[|i]] r Hnth; simpl in Hnth; try discriminate.
      inversion Hnth; subst. simpl. lia.
  - now exists t.
  - now exists t.
  - destruct (upload_csv_file chosen (store w))
      as [->|(df & t0 & recs & _ & Hdb & -> & _ & Hids)].
    + now exists t.
    + rewrite Hs in Hdb. inversion Hdb; subst t0. eexists. split; [reflexivity|].
      now apply well_numbered_append.
Qed.

End Session.

Section SessionFacts.
Context {E : Engine}.

Lemma clicks_well_numbered :
  forall clicks w t,
  store w = Some t -> well_numbered t ->
  exists t',
    store (fold_left (fun w c => on_click c w) clicks w) = Some t'
    /\ well_numbered t'.
Proof.
  induction clicks as [|c clicks IH]; intros w t Hs Hw; simpl.
  - now exists t.
  - destruct (on_click_well_numbered c w t Hs Hw) as (t1 & Hs1 & Hw1).
    exact (IH _ _ Hs1 Hw1).
Qed.

Lemma init_db_file : forall db, file (init_db db) = Some empty_table.
Proof. intros [t|]; reflexivity. Qed.

(** X4. From launch on, through any run of clicks, the table exists and
    its rowids are 1, 2, ... in table order, so that no two records
    share an id; and the window never depends on what the file held
    before the launch. *)
Theorem main_gui_numbers_records :
  forall (clicks : list click) (db : database),
  main_gui clicks db = main_gui clicks None
  /\ exists t,
       store (main_gui clicks db) = Some t
       /\ well_numbered t
       /\ NoDup (map id (rows t)).
Proof.
  intros clicks db. unfold main_gui. rewrite !init_db_file.
  split; [reflexivity|].
  destruct (clicks_well_numbered clicks (mk_window (Some empty_table) [])
              empty_table eq_refl) as (t & Hs & Hw).
  - split; [reflexivity|]. intros [|i] r; discriminate.
  - exists t. repeat split; try assumption; try apply Hw.
    now apply well_numbered_NoDup.
Qed.

(** *** Sessions without upload *)

Lemma validate_date_of_added :
  forall date category f description n,
  validate_date date = true -> fgt f fzero = true ->
  validated (mk_transaction n date category (AReal f) (Some description)).
Proof. intros. split; [assumption|]. now exists f. Qed.

Lemma on_click_validated :
  forall c w,
  no_upload c ->
  Forall validated (stored (store w)) ->
  Forall validated (stored (store (on_click c w))).
Proof.
  intros [date category amount description| | |chosen] w Hc Hall; simpl;
    try assumption; [|contradiction].
  destruct (add_transaction_appends_validated_file date category amount
              description (store w))
    as [->|(t & f & Hdb & Hd & _ & Hpos & ->)]; [assumption|].
  rewrite Hdb in Hall. simpl in *. apply Forall_app. split; [assumption|].
  constructor; [|constructor]. now apply validate_date_of_added.
Qed.

Lemma clicks_validated :
  forall clicks w,
  Forall no_upload clicks ->
  Forall validated (stored (store w)) ->
  Forall validated
    (stored (store (fold_left (fun w c => on_click c w) clicks w))).
Proof.
  induction clicks as [|c clicks IH]; intros w Hc Hall; simpl; [assumption|].
  inversion Hc; subst. apply IH; [assumption|]. now apply on_click_validated.
Qed.

Lemma pack_labels_real :
  forall l packed,
  Forall real_amount l ->
  exists texts,
    pack_labels l packed = (packed ++ texts, None)
    /\ Forall2 (fun r text => label_text r = Ok text) l texts.
Proof.
  induction l as [|r l IH]; intros packed Hall; simpl.
  - exists []. rewrite app_nil_r. split; [reflexivity|constructor].
  - inversion Hall as [|? ? [f Hf] Hrest]; subst.
    destruct (label_text r) as [text|e] eqn:Hl.
    + destruct (IH (packed ++ [text]) Hrest) as (texts & Hp & Ht).
      exists (text :: texts). rewrite Hp, <- app_assoc. simpl.
      split; [reflexivity|]. now constructor.
    + unfold label_text in Hl. rewrite Hf in Hl. discriminate.
Qed.

Lemma view_transactions_real :
  forall db on_display,
  Forall real_amount (stored db) ->
  view_uncaught (view_transactions db on_display) = None.
Proof.
  intros [t|] on_display Hall; [|reflexivity].
  unfold view_transactions, select_all, select. simpl in *.
  assert (Hf : filter (fun _ : transaction => true) (rows t) = rows t).
  { clear. induction (rows t) as [|r l IH]; simpl; [reflexivity|].
    now rewrite IH. }
  rewrite Hf. destruct (rows t) as [|r l] eqn:Hrows; [reflexivity|].
  destruct (pack_labels_real (r :: l) [] Hall) as (texts & Hp & _).
  now rewrite Hp.
Qed.

(** X5. In a session without CSV upload every stored record has a date
    that passed [validate_date] and a float amount above zero, and
    "View Transactions" raises nothing. *)
Theorem manual_session_is_validated :
  forall (clicks : list click) (db : database),
  Forall no_upload clicks ->
  Forall validated (stored (store (main_gui clicks db)))
  /\ view_uncaught
       (view_transactions (store (main_gui clicks db))
                          (transaction_display (main_gui clicks db)))
     = None.
Proof.
  intros clicks db Hc.
  assert (Hv : Forall validated (stored (store (main_gui clicks db)))).
  { unfold main_gui. apply clicks_validated; [assumption|].
    rewrite init_db_file. constructor. }
  split; [exact Hv|].
  apply view_transactions_real.
  eapply Forall_impl; [|exact Hv].
  intros r [_ [f [Hf _]]]. now exists f.
Qed.

End SessionFacts.

Lemma manual_session_is_validated_witness :
  Forall validated
    (stored (store (main_gui (E := Sample.engine)
                      [ClickAdd "2024-05-01" "Food" "12.5" "lunch";
                       ClickView;
                       ClickAdd "2024-5-1" "Food" "3" "bad date";
                       ClickAnalyze;
                       ClickAdd "2024-05-02" "Rent" "-1" "bad amount"]
                      lunch_store)))
  /\ view_uncaught
       (view_transactions
          (store (main_gui (E := Sample.engine)
                    [ClickAdd "2024-05-01" "Food" "12.5" "lunch";
                     ClickView;
                     ClickAdd "2024-5-1" "Food" "3" "bad date";
                     ClickAnalyze;
                     ClickAdd "2024-05-02" "Rent" "-1" "bad amount"]
                    lunch_store))
          (transaction_display
             (main_gui (E := Sample.engine)
                [ClickAdd "2024-05-01" "Food" "12.5" "lunch";
                 ClickView;
                 ClickAdd "2024-5-1" "Food" "3" "bad date";
                 ClickAnalyze;
                 ClickAdd "2024-05-02" "Rent" "-1" "bad amount"]
                lunch_store)))
     = None.
Proof.
  apply (manual_session_is_validated (E := Sample.engine)).
  repeat constructor.
Defined.

(** ** What "View Transactions" puts on display *)

Lemma label_text_real :
  forall r text, label_text r = Ok text -> real_amount r.
Proof.
  intros r text. unfold label_text, real_amount.
  destruct (amount r) as [f|s]; [eauto|discriminate].
Qed.

(** The loop packs the labels of the rows before the first amount that
    is a text, and raises at that row. *)
Lemma pack_labels_prefix :
  forall l packed,
  exists shown_rows rest texts,
    l = shown_rows ++ rest
    /\ fst (pack_labels l packed) = packed ++ texts
    /\ Forall2 (fun r text => label_text r = Ok text) shown_rows texts
    /\ (snd (pack_labels l packed) = None <-> rest = [])
    /\ (forall r rest', rest = r :: rest' -> exists s, amount r = AText s).
Proof.
  induction l as [|r l IH]; intros packed; simpl.
  - exists [], [], []. simpl. rewrite app_nil_r.
    split; [reflexivity|]. split; [reflexivity|]. split; [constructor|].
    split; [split; reflexivity|]. intros r rest' H. discriminate.
  - destruct (label_text r) as [text|e] eqn:Hl.
    + destruct (IH (packed ++ [text]))
        as (shown_rows & rest & texts & Heq & Hfst & Hall & Hnone & Hrest).
      exists (r :: shown_rows), rest, (text :: texts).
      rewrite Hfst, <- app_assoc. simpl.
      split; [now rewrite Heq|]. split; [reflexivity|].
      split; [now constructor|]. split; [exact Hnone|exact Hrest].
    + exists [], (r :: l), []. simpl. rewrite app_nil_r.
      split; [reflexivity|]. split; [reflexivity|]. split; [constructor|].
      split; [split; discriminate|].
      intros r0 rest' H. inversion H; subst.
      unfold label_text in Hl. destruct (amount r0) as [f|s]; [discriminate|].
      now exists s.
Qed.

Lemma select_all_stored :
  forall t, select_all (Some t) = Ok (rows t).
Proof.
  intros t. unfold select_all, select. f_equal.
  induction (rows t) as [|r l IH]; simpl; [reflexivity|]. now rewrite IH.
Qed.



(* ================================================================== *)
(** * Further properties of the HTTP query surface *)
(* ================================================================== *)

(** ** The date range *)

Lemma ascii_compare_digit_value :
  forall a b, Ascii.compare a b = (digit_value a ?= digit_value b)%Z.
Proof.
  intros a b. unfold Ascii.compare, digit_value, nat_of_ascii.
  rewrite !N_nat_Z, <- N2Z.inj_compare.
  destruct (Z.compare_spec (Z.of_N (N_of_ascii a)) (Z.of_N (N_of_ascii b)));
    symmetry;
    [apply Z.compare_eq_iff|apply Z.compare_lt_iff|apply Z.compare_gt_iff];
    lia.
Qed.

Lemma is_digit_value :
  forall c, is_digit c = true -> (0 <= digit_value c <= 9)%Z.
Proof.
  intros c. unfold is_digit, digit_value.
  rewrite andb_true_iff, !Nat.leb_le. lia.
Qed.

Lemma parse_ymd_chars :
  forall s y m d, parse_ymd s = Some (y, m, d) ->
  exists y1 y2 y3 y4 m1 m2 d1 d2,
    s = string_of_list_ascii [y1; y2; y3; y4; "-"%char; m1; m2; "-"%char;
                              d1; d2]
    /\ Forall (fun c => is_digit c = true) [y1; y2; y3; y4; m1; m2; d1; d2]
    /\ y = digits_value [y1; y2; y3; y4]
    /\ m = digits_value [m1; m2]
    /\ d = digits_value [d1; d2].
Proof.
  intros s y m d. unfold parse_ymd.
  destruct (list_ascii_of_string s)
    as [|y1 [|y2 [|y3 [|y4 [|h1 [|m1 [|m2 [|h2 [|d1 [|d2 [|x l]]]]]]]]]]]
    eqn:Hl; try discriminate.
  destruct (forallb is_digit [y1; y2; y3; y4; m1; m2; d1; d2]) eqn:Hd;
    [|discriminate].
  destruct (Ascii.eqb h1 "-") eqn:H1; [|discriminate].
  destruct (Ascii.eqb h2 "-") eqn:H2; [|discriminate].
  simpl. intros H. inversion H; subst.
  apply Ascii.eqb_eq in H1. apply Ascii.eqb_eq in H2. subst h1 h2.
  exists y1, y2, y3, y4, m1, m2, d1, d2. split.
  - now rewrite <- (string_of_list_ascii_of_string s), Hl.
  - split; [|repeat split].
    apply Forall_forall. now apply forallb_forall.
Qed.

(** Eight pairs of digits compared from the left, and the numbers they
    write. *)
Lemma compare_date_digits :
  forall a1 a2 a3 a4 a5 a6 a7 a8 b1 b2 b3 b4 b5 b6 b7 b8 : Z,
  (0 <= a1 <= 9 -> 0 <= a2 <= 9 -> 0 <= a3 <= 9 -> 0 <= a4 <= 9 ->
   0 <= a5 <= 9 -> 0 <= a6 <= 9 -> 0 <= a7 <= 9 -> 0 <= a8 <= 9 ->
   0 <= b1 <= 9 -> 0 <= b2 <= 9 -> 0 <= b3 <= 9 -> 0 <= b4 <= 9 ->
   0 <= b5 <= 9 -> 0 <= b6 <= 9 -> 0 <= b7 <= 9 -> 0 <= b8 <= 9 ->
   match a1 ?= b1 with
   | Eq =>
     match a2 ?= b2 with
     | Eq =>
       match a3 ?= b3 with
       | Eq =>
         match a4 ?= b4 with
         | Eq =>
           match a5 ?= b5 with
           | Eq =>
             match a6 ?= b6 with
             | Eq =>
               match a7 ?= b7 with
               | Eq => match a8 ?= b8 with
                       | Eq => Eq | Lt => Lt | Gt => Gt
                       end
               | Lt => Lt | Gt => Gt
               end
             | Lt => Lt | Gt => Gt
             end
           | Lt => Lt | Gt => Gt
           end
         | Lt => Lt | Gt => Gt
         end
       | Lt => Lt | Gt => Gt
       end
     | Lt => Lt | Gt => Gt
     end
   | Lt => Lt | Gt => Gt
   end
   = ymd_compare ((((0 * 10 + a1) * 10 + a2) * 10 + a3) * 10 + a4,
                  (0 * 10 + a5) * 10 + a6, (0 * 10 + a7) * 10 + a8)
                 ((((0 * 10 + b1) * 10 + b2) * 10 + b3) * 10 + b4,
                  (0 * 10 + b5) * 10 + b6, (0 * 10 + b7) * 10 + b8))%Z.
Proof.
  intros. unfold ymd_compare. cbv beta iota.
  repeat match goal with
         | |- match (?a ?= ?b)%Z with _ => _ end = _ =>
             destruct (Z.compare_spec a b)
         end;
    repeat match goal with
           | |- _ = match (?a ?= ?b)%Z with _ => _ end =>
               destruct (Z.compare_spec a b)
           end;
    try match goal with
        | |- _ = (?a ?= ?b)%Z => destruct (Z.compare_spec a b)
        end;
    try reflexivity; exfalso; lia.
Qed.

(** On texts of the shape [dddd-dd-dd] the order of text is the order
    of the calendar. *)
Lemma string_compare_ymd :
  forall a b A B,
  parse_ymd a = Some A -> parse_ymd b = Some B ->
  String.compare a b = ymd_compare A B.
Proof.
  intros a b [[ya ma] da] [[yb mb] db] Ha Hb.
  destruct (parse_ymd_chars _ _ _ _ Ha)
    as (a1 & a2 & a3 & a4 & a5 & a6 & a7 & a8 & -> & Hda & -> & -> & ->).
  destruct (parse_ymd_chars _ _ _ _ Hb)
    as (b1 & b2 & b3 & b4 & b5 & b6 & b7 & b8 & -> & Hdb & -> & -> & ->).
  repeat match goal with
         | H : Forall _ (_ :: _) |- _ => inversion H; clear H; subst
         end.
  cbn [string_of_list_ascii String.compare].
  rewrite !ascii_compare_digit_value.
  change (digit_value "-" ?= digit_value "-")%Z with Eq.
  cbv beta iota.
  apply compare_date_digits; now apply is_digit_value.
Qed.

Lemma string_leb_compare :
  forall a b, (a <=? b)%string = true <-> String.compare a b <> Gt.
Proof.
  intros a b. unfold String.leb.
  destruct (String.compare a b); split; congruence.
Qed.

(** X7. When the two bounds are written [YYYY-MM-DD], the range query
    returns, of the records whose date is written so, exactly those
    dated from the start to the end in calendar order, both bounds
    included. *)
Theorem date_range_is_chronological :
  forall (args : query_args) (t : table) (s e : string)
         (first last : Z * Z * Z),
  args_get "start_date" args = Some s ->
  args_get "end_date" args = Some e ->
  parse_ymd s = Some first ->
  parse_ymd e = Some last ->
  exists l,
    get_transactions_by_date_range args (Some t) = Json 200 (Records l)
    /\ forall r day,
         parse_ymd (date r) = Some day ->
         (In r l <-> In r (rows t) /\ ymd_le first day /\ ymd_le day last).
Proof.
  intros args t s e first last Hs He Hfirst Hlast.
  exists (filter (date_between s e) (rows t)). split.
  - unfold get_transactions_by_date_range. rewrite Hs, He.
    destruct s as [|c s]; [discriminate|].
    destruct e as [|c' e]; [discriminate|]. reflexivity.
  - intros r day Hday. rewrite filter_In. unfold date_between, ymd_le.
    rewrite andb_true_iff, !string_leb_compare.
    rewrite (string_compare_ymd _ _ _ _ Hfirst Hday).
    rewrite (string_compare_ymd _ _ _ _ Hday Hlast).
    tauto.
Qed.

Lemma date_range_is_chronological_witness :
  exists l,
    get_transactions_by_date_range
      [("start_date", "2024-04-30"); ("end_date", "2024-05-01")]
      (Some may_store)
    = Json 200 (Records l)
    /\ forall r day,
         parse_ymd (date r) = Some day ->
         (In r l <-> In r (rows may_store)
                     /\ ymd_le (2024, 4, 30)%Z day
                     /\ ymd_le day (2024, 5, 1)%Z).
Proof.
  apply (date_range_is_chronological
           [("start_date", "2024-04-30"); ("end_date", "2024-05-01")]
           may_store "2024-04-30" "2024-05-01");
    reflexivity.
Defined.

Lemma string_leb_trans :
  forall a b c,
  (a <=? b)%string = true -> (b <=? c)%string = true ->
  (a <=? c)%string = true.
Proof.
  intros a b c. unfold String.leb.
  destruct (String.compare a b) eqn:Hab; try discriminate;
    destruct (String.compare b c) eqn:Hbc; try discriminate; intros _ _.
  - apply String.compare_eq_iff in Hab. subst. now rewrite Hbc.
  - apply String.compare_eq_iff in Hab. subst. now rewrite Hbc.
  - apply String.compare_eq_iff in Hbc. subst. now rewrite Hab.
  - now rewrite (string_compare_trans _ _ _ Hab Hbc).
Qed.

Lemma string_leb_refl : forall a, (a <=? a)%string = true.
Proof. intros a. unfold String.leb. now rewrite string_compare_refl. Qed.

(** X8. On any texts the range query compares in byte order: a start
    that sorts after the end selects nothing, whatever the table holds;
    otherwise the records dated exactly as the start or as the end are
    among those returned. *)
Theorem date_range_bounds :
  forall (args : query_args) (t : table) (s e : string),
  args_get "start_date" args = Some s ->
  args_get "end_date" args = Some e ->
  s <> EmptyString -> e <> EmptyString ->
  ((e <? s)%string = true ->
     get_transactions_by_date_range args (Some t) = Json 200 (Records []))
  /\ ((s <=? e)%string = true ->
      exists l,
        get_transactions_by_date_range args (Some t) = Json 200 (Records l)
        /\ forall r, In r (rows t) -> date r = s \/ date r = e -> In r l).
Proof.
  intros args t s e Hs He Hns Hne.
  assert (Hreply : get_transactions_by_date_range args (Some t)
                   = Json 200 (Records (filter (date_between s e) (rows t)))).
  { unfold get_transactions_by_date_range. rewrite Hs, He.
    destruct s; [contradiction|]. destruct e; [contradiction|]. reflexivity. }
  rewrite Hreply. clear Hreply. split.
  - intros Hlt. do 2 f_equal.
    induction (rows t) as [|r l IH]; simpl; [reflexivity|].
    destruct (date_between s e r) eqn:Hb; [|exact IH].
    exfalso. unfold date_between in Hb. apply andb_true_iff in Hb as [H1 H2].
    pose proof (string_leb_trans _ _ _ H1 H2) as Hse.
    unfold String.ltb, String.leb in *.
    rewrite String.compare_antisym in Hse.
    destruct (String.compare e s); discriminate.
  - intros Hle. eexists. split; [reflexivity|].
    intros r Hin Hdate. apply filter_In. split; [exact Hin|].
    unfold date_between.
    destruct Hdate as [-> | ->]; rewrite string_leb_refl, Hle; reflexivity.
Qed.

Lemma date_range_bounds_witness :
  get_transactions_by_date_range
    [("start_date", "2024-12-31"); ("end_date", "2024-01-01")]
    (Some may_store)
  = Json 200 (Records []).
Proof.
  apply (proj1 (date_range_bounds
                  [("start_date", "2024-12-31"); ("end_date", "2024-01-01")]
                  may_store "2024-12-31" "2024-01-01" eq_refl eq_refl
                  ltac:(discriminate) ltac:(discriminate))).
  reflexivity.
Defined.

(** ** Parameters *)

(** X9. A text parameter given with an empty value is answered like a
    missing one, with status 400 and before the database is touched. *)
Theorem empty_parameter_is_bad_request :
  forall (args : query_args) (db : database),
  (args_get "start_date" args = Some EmptyString
   \/ args_get "end_date" args = Some EmptyString ->
     get_transactions_by_date_range args db
       = Json 400
           (ErrorMessage "Both 'start_date' and 'end_date' are required"))
  /\ (args_get "category" args = Some EmptyString ->
     get_transactions_by_category args db
       = Json 400 (ErrorMessage "'category' parameter is required"))
  /\ (args_get "keyword" args = Some EmptyString ->
     get_transactions_by_keyword args db
       = Json 400 (ErrorMessage "'keyword' parameter is required")).
Proof.
  intros args db. split; [|split].
  - intros [H|H]; unfold get_transactions_by_date_range; rewrite H; simpl.
    + reflexivity.
    + now rewrite orb_true_r.
  - intros H. unfold get_transactions_by_category. now rewrite H.
  - intros H. unfold get_transactions_by_keyword. now rewrite H.
Qed.

Lemma empty_parameter_is_bad_request_witness :
  get_transactions_by_date_range
    [("start_date", "2024-01-01"); ("end_date", EmptyString)] None
  = Json 400 (ErrorMessage "Both 'start_date' and 'end_date' are required")
  /\ get_transactions_by_category [("category", EmptyString)] lunch_store
     = Json 400 (ErrorMessage "'category' parameter is required")
  /\ get_transactions_by_keyword [("keyword", EmptyString)] lunch_store
     = Json 400 (ErrorMessage "'keyword' parameter is required").
Proof.
  split; [|split].
  - apply (proj1 (empty_parameter_is_bad_request
                    [("start_date", "2024-01-01"); ("end_date", EmptyString)]
                    None)).
    right. reflexivity.
  - apply (proj1 (proj2 (empty_parameter_is_bad_request
                           [("category", EmptyString)] lunch_store))).
    reflexivity.
  - apply (proj2 (proj2 (empty_parameter_is_bad_request
                           [("keyword", EmptyString)] lunch_store))).
    reflexivity.
Defined.

(** ** The category filter *)

(** X10. For a category that is not empty the answer lists, in table
    order, exactly the records whose category is that very text: the
    case of letters counts and a part of the text does not match. *)
Theorem category_is_exact :
  forall (args : query_args) (t : table) (c : string),
  args_get "category" args = Some c ->
  c <> EmptyString ->
  exists l,
    get_transactions_by_category args (Some t) = Json 200 (Records l)
    /\ l = filter (fun r => category r =? c) (rows t)
    /\ forall r, In r l <-> In r (rows t) /\ category r = c.
Proof.
  intros args t c Hc Hne. eexists. split; [|split; [reflexivity|]].
  - unfold get_transactions_by_category. rewrite Hc.
    destruct c; [contradiction|reflexivity].
  - intros r. rewrite filter_In. cbv beta. now rewrite String.eqb_eq.
Qed.

Lemma category_is_exact_witness :
  exists l,
    get_transactions_by_category [("category", "food")] groceries_store
      = Json 200 (Records l)
    /\ l = filter (fun r => category r =? "food") [groceries]
    /\ forall r, In r l <-> In r [groceries] /\ category r = "food".
Proof.
  apply (category_is_exact [("category", "food")]
           (mk_table [groceries] 1) "food" eq_refl).
  discriminate.
Defined.

(** ** The keyword filter and the case of letters *)

Lemma lower_idempotent : forall c, lower (lower c) = lower c.
Proof. intros [[] [] [] [] [] [] [] []]; reflexivity. Qed.

Lemma lower_percent : forall c, Ascii.eqb (lower c) "%" = Ascii.eqb c "%".
Proof. intros [[] [] [] [] [] [] [] []]; reflexivity. Qed.

Lemma lower_underscore : forall c, Ascii.eqb (lower c) "_" = Ascii.eqb c "_".
Proof. intros [[] [] [] [] [] [] [] []]; reflexivity. Qed.

Lemma like_fold_case :
  forall p t, like (fold_case p) t = like p t.
Proof.
  induction p as [|c p IH]; intros t; [reflexivity|].
  cbn [fold_case]. destruct (Ascii.eqb c "%") eqn:Hc.
  - apply Ascii.eqb_eq in Hc. subst c. change (lower "%") with "%"%char.
    induction t as [|x t IHt].
    + now rewrite !like_percent, IH.
    + now rewrite (like_percent (fold_case p)), (like_percent p), IH, IHt.
  - rewrite (like_char (lower c)) by (now rewrite lower_percent).
    rewrite (like_char c) by exact Hc.
    destruct t as [|x t]; [reflexivity|].
    now rewrite lower_underscore, lower_idempotent, IH.
Qed.

Lemma fold_case_length :
  forall k, String.length (fold_case k) = String.length k.
Proof. induction k as [|c k IH]; simpl; [reflexivity|now rewrite IH]. Qed.

Lemma fold_case_append :
  forall a b, fold_case (a ++ b) = (fold_case a ++ fold_case b)%string.
Proof.
  induction a as [|c a IH]; intros b; simpl; [reflexivity|]. now rewrite IH.
Qed.

Lemma select_description_like_fold_case :
  forall p db,
  select_description_like (fold_case p) db = select_description_like p db.
Proof.
  intros p [t|]; [|reflexivity]. unfold select_description_like.
  rewrite fold_case_length.
  destruct (rows t) as [|r l]; [reflexivity|].
  destruct (like_pattern_limit <? Z.of_nat (String.length p))%Z;
    [reflexivity|].
  f_equal. apply filter_ext. intros x. unfold description_like.
  destruct (description x); [apply like_fold_case|reflexivity].
Qed.

(** X11. The keyword filter does not see the case of the letters of the
    keyword: a keyword and the same keyword in small letters get the
    same answer, from every database file. *)
Theorem keyword_case_is_ignored :
  forall (args args' : query_args) (db : database) (k : string),
  args_get "keyword" args = Some k ->
  args_get "keyword" args' = Some (fold_case k) ->
  get_transactions_by_keyword args' db = get_transactions_by_keyword args db.
Proof.
  intros args args' db k Hk Hk'. unfold get_transactions_by_keyword.
  rewrite Hk, Hk'. destruct k as [|c k]; [reflexivity|].
  cbn [fold_case str_truthy negb].
  change ("%" ++ String (lower c) (fold_case k) ++ "%")%string
    with (fold_case ("%" ++ String c k) ++ "%")%string.
  change ("%" ++ String c k ++ "%")%string
    with (("%" ++ String c k) ++ "%")%string.
  change "%"%string with (fold_case "%") at 2.
  rewrite <- fold_case_append.
  now rewrite select_description_like_fold_case.
Qed.

Lemma keyword_case_is_ignored_witness :
  get_transactions_by_keyword [("keyword", "food trans")] groceries_store
  = get_transactions_by_keyword [("keyword", "FOOD Trans")] groceries_store.
Proof.
  apply (keyword_case_is_ignored [("keyword", "FOOD Trans")]
           [("keyword", "food trans")] groceries_store "FOOD Trans");
    reflexivity.
Defined.

(** ** The keyword filter and [%] *)

Lemma string_append_empty : forall s, (s ++ EmptyString)%string = s.
Proof. induction s as [|c s IH]; simpl; [reflexivity|now rewrite IH]. Qed.

Lemma like_all_percent :
  forall p t, only_percent p = true -> p <> EmptyString -> like p t = true.
Proof.
  induction p as [|c p IH]; intros t Hp Hne; [contradiction|].
  simpl in Hp. apply andb_true_iff in Hp as [Hc Hp].
  apply Ascii.eqb_eq in Hc. subst c. apply like_percent_suffix.
  destruct p as [|c p].
  - exists t, EmptyString. split; [now rewrite string_append_empty|reflexivity].
  - exists EmptyString, t. split; [reflexivity|]. apply IH; [exact Hp|discriminate].
Qed.

Lemma only_percent_append :
  forall a b, only_percent a = true -> only_percent b = true ->
              only_percent (a ++ b) = true.
Proof.
  induction a as [|c a IH]; intros b Ha Hb; simpl in *; [exact Hb|].
  apply andb_true_iff in Ha as [Hc Ha]. now rewrite Hc, IH.
Qed.

(** X12. The keyword is put into the LIKE pattern as it is, so its [%]
    are wildcards: a keyword made of [%] only returns every record that
    has a description, whatever the description says. *)
Theorem percent_keyword_matches_all :
  forall (args : query_args) (t : table) (k : string),
  args_get "keyword" args = Some k ->
  k <> EmptyString ->
  only_percent k = true ->
  (Z.of_nat (String.length k) <= like_pattern_limit - 2)%Z ->
  get_transactions_by_keyword args (Some t)
  = Json 200
      (Records (filter (fun r => match description r with
                                 | Some _ => true
                                 | None => false
                                 end) (rows t))).
Proof.
  intros args t k Hk Hne Hp Hlen. unfold get_transactions_by_keyword.
  rewrite Hk. destruct k as [|c k]; [contradiction|].
  cbn [str_truthy negb]. unfold select_description_like.
  destruct (rows t) as [|r0 l0]; [reflexivity|].
  replace (like_pattern_limit
           <? Z.of_nat (String.length ("%" ++ String c k ++ "%")))%Z
    with false.
  - cbn [records]. do 2 f_equal. apply filter_ext. intros r.
    unfold description_like. destruct (description r) as [d|]; [|reflexivity].
    apply like_all_percent; [|discriminate].
    apply (only_percent_append "%"); [reflexivity|].
    now apply only_percent_append.
  - symmetry. apply Z.ltb_ge.
    change ("%" ++ String c k ++ "%")%string
      with (String "%" (String c k ++ "%")).
    cbn [String.length]. rewrite string_length_append.
    cbn [String.length] in *. unfold like_pattern_limit in *. lia.
Qed.

Lemma percent_keyword_matches_all_witness :
  get_transactions_by_keyword [("keyword", "%")] groceries_store
  = Json 200
      (Records (filter (fun r => match description r with
                                 | Some _ => true
                                 | None => false
                                 end) [groceries])).
Proof.
  apply (percent_keyword_matches_all [("keyword", "%")]
           (mk_table [groceries] 1) "%" eq_refl).
  - discriminate.
  - reflexivity.
  - unfold like_pattern_limit. simpl. lia.
Defined.

(** ** A database file without table *)



(** ** The monthly summary on any dates *)

Lemma add_to_group_concat :
  forall k a g,
  Permutation (concat (map snd (add_to_group k a g)))
              (a :: concat (map snd g)).
Proof.
  intros k a g. induction g as [|[k0 ms] g IH]; simpl.
  - apply Permutation_refl.
  - destruct (key_compare k k0); simpl.
    + rewrite <- app_assoc. simpl. apply Permutation_sym, Permutation_middle.
    + apply Permutation_refl.
    + eapply Permutation_trans.
      * apply Permutation_app_head. exact IH.
      * apply Permutation_sym, Permutation_middle.
Qed.

Section AnyDates.
Context {E : Engine}.

Lemma fold_groups_concat :
  forall l g,
  Permutation
    (concat (map snd
       (fold_left (fun groups t =>
                     add_to_group (month_of t) (amount t) groups) l g)))
    (concat (map snd g) ++ map amount l).
Proof.
  induction l as [|r l IH]; intros g; simpl.
  - now rewrite app_nil_r.
  - eapply Permutation_trans; [apply IH|].
    eapply Permutation_trans.
    + apply Permutation_app_tail. apply add_to_group_concat.
    + simpl. apply Permutation_middle.
Qed.

Lemma groups_not_longer :
  forall g : list (key * list amount_cell),
  (forall k ms, In (k, ms) g -> ms <> []) ->
  (List.length g <= List.length (concat (map snd g)))%nat.
Proof.
  induction g as [|[k ms] g IH]; intros Hne; simpl; [lia|].
  rewrite length_app.
  assert (ms <> []) by (apply (Hne k); now left).
  assert (List.length g <= List.length (concat (map snd g)))%nat
    by (apply IH; intros k' ms' Hin; apply (Hne k'); now right).
  destruct ms; [contradiction|simpl; lia].
Qed.

(** X14. Whatever the stored dates and whatever the engine, the monthly
    summary has one pair for each value [strftime('%Y-%m', date)] takes
    on the table (NULL among them), in ascending order with NULL first,
    and the total of a pair is the engine's sum over the amounts of the
    records with that value, in table order. *)
Theorem monthly_summary_groups_by_strftime :
  forall t : table,
  exists l,
    get_monthly_spending_summary (Some t) = Json 200 (MonthTotals l)
    /\ StronglySorted key_lt (map fst l)
    /\ forall k total,
         In (k, total) l
         <-> (exists r, In r (rows t) /\ month_of r = k)
             /\ total = sum (members k (rows t)).
Proof.
  intros t.
  exists (map (fun g => (fst g, sum (snd g))) (group_by_month (rows t))).
  split; [reflexivity|]. split.
  - rewrite map_map. simpl.
    destruct (group_by_month_grouped (rows t)) as (Hasc & _). exact Hasc.
  - intros k total. rewrite in_map_iff. split.
    + intros ([k' ms] & Heq & Hin). simpl in Heq.
      injection Heq as Hk Ht. subst k' total.
      apply group_by_month_spec in Hin as [Hr Hms]. now subst ms.
    + intros [Hr ->]. exists (k, members k (rows t)).
      split; [reflexivity|]. now apply group_by_month_spec.
Qed.

(** X15. The groups of the monthly summary neither lose nor repeat a
    record: put together, their members are the amounts of the table,
    each once; so the summary has at most as many pairs as the table has
    records, and none for an empty table. *)
Theorem monthly_summary_counts_each_record_once :
  forall t : table,
  Permutation (concat (map snd (group_by_month (rows t))))
              (map amount (rows t))
  /\ exists l,
       get_monthly_spending_summary (Some t) = Json 200 (MonthTotals l)
       /\ (List.length l <= List.length (rows t))%nat
       /\ (rows t = [] -> l = []).
Proof.
  intros t.
  assert (Hperm : Permutation (concat (map snd (group_by_month (rows t))))
                              (map amount (rows t))).
  { unfold group_by_month. apply (fold_groups_concat (rows t) []). }
  split; [exact Hperm|].
  exists (map (fun g => (fst g, sum (snd g))) (group_by_month (rows t))).
  split; [reflexivity|]. split.
  - rewrite length_map.
    rewrite <- (length_map amount (rows t)).
    rewrite <- (Permutation_length Hperm).
    apply groups_not_longer.
    destruct (group_by_month_grouped (rows t)) as (_ & Hmem & _).
    intros k ms Hin. now apply (Hmem k ms).
  - intros ->. reflexivity.
Qed.

End AnyDates.

(* ================================================================== *)
(** * The desktop program and the query surface together *)
(* ================================================================== *)

Lemma validate_date_not_empty :
  forall d, validate_date d = true -> d <> EmptyString.
Proof. intros d H ->. discriminate. Qed.

Lemma filter_app_last :
  forall (A : Type) (p : A -> bool) l x,
  p x = true -> filter p (l ++ [x]) = filter p l ++ [x].
Proof. intros A p l x H. rewrite filter_app. simpl. now rewrite H. Qed.

Section EntryThenQuery.
Context {E : Engine}.

(** X16. An entry that passes both checks is found again by the query
    surface: the list of all records ends with it, and so do the answer
    for its category (when not empty) and the answer for the range from
    its date to its date, which hold besides it the earlier records of
    that category and of that date. *)
Theorem entry_is_found_by_queries :
  forall (d c a ds : string) (t : table) (f : float),
  validate_date d = true ->
  py_float a = Some f ->
  fgt f fzero = true ->
  c <> EmptyString ->
  get_all_transactions (file (add_transaction d c a ds (Some t)))
    = Json 200 (Records (rows t ++ [mk_transaction (seq t + 1) d c (AReal f)
                                                   (Some ds)]))
  /\ get_transactions_by_category [("category", c)]
       (file (add_transaction d c a ds (Some t)))
     = Json 200
         (Records (filter (fun r => category r =? c) (rows t)
                   ++ [mk_transaction (seq t + 1) d c (AReal f) (Some ds)]))
  /\ get_transactions_by_date_range [("start_date", d); ("end_date", d)]
       (file (add_transaction d c a ds (Some t)))
     = Json 200
         (Records (filter (fun r => date r =? d) (rows t)
                   ++ [mk_transaction (seq t + 1) d c (AReal f) (Some ds)])).
Proof.
  intros d c a ds t f Hd Hf Hpos Hc.
  rewrite (add_transaction_valid_file d c a ds t f Hd Hf Hpos).
  cbn [file]. split; [|split].
  - unfold get_all_transactions. now rewrite select_all_stored.
  - unfold get_transactions_by_category. cbn [args_get].
    rewrite String.eqb_refl. destruct c as [|x c]; [contradiction|].
    cbn [str_truthy negb select records rows]. do 2 f_equal.
    apply filter_app_last. apply String.eqb_refl.
  - pose proof (validate_date_not_empty d Hd) as Hne.
    unfold get_transactions_by_date_range. cbn [args_get].
    rewrite !String.eqb_refl.
    replace ("start_date" =? "end_date")%string with false by reflexivity.
    destruct d as [|x d]; [contradiction|].
    cbn [str_truthy negb orb select records rows]. do 2 f_equal.
    rewrite filter_app_last
      by (unfold date_between; cbn [date]; now rewrite string_leb_refl).
    f_equal. apply filter_ext. intros r. unfold date_between.
    destruct (date r =? String x d)%string eqn:Heq.
    + apply String.eqb_eq in Heq. rewrite Heq. now rewrite string_leb_refl.
    + apply andb_false_iff.
      destruct (String x d <=? date r)%string eqn:H1; [|now left].
      destruct (date r <=? String x d)%string eqn:H2; [|now right].
      rewrite (String.leb_antisym _ _ H2 H1) in Heq.
      now rewrite String.eqb_refl in Heq.
Qed.

End EntryThenQuery.

Lemma entry_is_found_by_queries_witness :
  exists f,
    py_float "40.33" = Some f
    /\ get_transactions_by_category [("category", "Food")]
         (file (add_transaction (E := Sample.engine)
                  "2024-05-01" "Food" "40.33" "x" lunch_store))
       = Json 200
           (Records (filter (fun r => category r =? "Food") [lunch]
                     ++ [mk_transaction 2 "2024-05-01" "Food" (AReal f)
                                        (Some "x")])).
Proof.
  eexists. split; [reflexivity|].
  apply (proj1 (proj2 (entry_is_found_by_queries (E := Sample.engine)
                         "2024-05-01" "Food" "40.33" "x" (mk_table [lunch] 1)
                         _ eq_refl eq_refl eq_refl ltac:(discriminate)))).
Defined.

(** ** What the writers report *)

Lemma app_one_neq : forall (A : Type) (l : list A) x, l ++ [x] <> l.
Proof.
  intros A l x H. apply (f_equal (@List.length A)) in H.
  rewrite length_app in H. simpl in H. lia.
Qed.

Section Reports.
Context {E : Engine}.

(** X17. The writers report what they did.  [add_transaction] prints
    "Transaction added successfully!" exactly when it has appended a
    record.  When [upload_csv] shows "CSV file uploaded successfully."
    the table holds one more record per data row of the frame, and when
    it shows an error box the database file is as it was. *)
Theorem writers_report_what_they_did :
  (forall (d c a ds : string) (db : database),
     In (Print "Transaction added successfully!")
        (shown (add_transaction d c a ds db))
     <-> exists r,
           stored (file (add_transaction d c a ds db)) = stored db ++ [r])
  /\ (forall (chosen : chosen_file) (db : database),
        In (ShowInfo "CSV Upload" "CSV file uploaded successfully.")
           (shown (upload_csv chosen db)) ->
        exists df recs,
          chosen = Parsed df
          /\ stored (file (upload_csv chosen db)) = stored db ++ recs
          /\ List.length recs = List.length (data df))
  /\ (forall (chosen : chosen_file) (db : database) (title text : string),
        In (ShowError title text) (shown (upload_csv chosen db)) ->
        file (upload_csv chosen db) = db).
Proof.
  split; [|split].
  - intros d c a ds db. split.
    + intros Hin.
      destruct (validate_date d) eqn:Hd.
      * destruct (py_float a) as [f|] eqn:Hf.
        -- destruct (fgt f fzero) eqn:Hpos.
           ++ destruct db as [t|].
              ** rewrite (add_transaction_valid_file d c a ds t f Hd Hf Hpos).
                 simpl. eauto.
              ** exfalso. revert Hin. unfold add_transaction, validate_amount.
                 rewrite Hd, Hf, Hpos. simpl.
                 intros [H|[H|[H|[H|[H|[]]]]]]; discriminate.
           ++ exfalso. revert Hin. unfold add_transaction, validate_amount.
              rewrite Hd, Hf, Hpos. simpl.
              intros [H|[H|[H|[H|[]]]]]; discriminate.
        -- exfalso. revert Hin. unfold add_transaction, validate_amount.
           rewrite Hd, Hf. simpl.
           intros [H|[H|[H|[H|[]]]]]; discriminate.
      * exfalso. revert Hin. unfold add_transaction. rewrite Hd. simpl.
        intros [H|[H|[]]]; discriminate.
    + intros [r Hr].
      destruct (add_transaction_appends_validated_file d c a ds db)
        as [Hsame|(t & f & -> & Hd & Hf & Hpos & _)].
      * rewrite Hsame in Hr. symmetry in Hr. now apply app_one_neq in Hr.
      * rewrite (add_transaction_valid_file d c a ds t f Hd Hf Hpos).
        simpl. tauto.
  - intros chosen db Hin.
    destruct chosen as [|e|df]; unfold upload_csv in *;
      try (simpl in Hin; destruct Hin as [H|[]]; discriminate);
      try contradiction.
    destruct (forallb (has_column df) required_columns); cbn [negb] in *;
      [|simpl in Hin; destruct Hin as [H|[]]; discriminate].
    destruct (insert_rows (iterrows df) (connect db)) as [[[]|e] c'] eqn:Hrun;
      [|simpl in Hin; destruct Hin as [H|[]]; discriminate].
    exists df. cbn [file]. destruct db as [t|]; unfold connect in Hrun.
    + destruct (insert_rows_appends _ _ _ _ Hrun) as (recs & -> & Hlen & _).
      exists recs. simpl. repeat split.
      rewrite Hlen. unfold iterrows. apply length_map.
    + destruct (insert_rows_no_table _ _ _ Hrun) as [Hnil ->].
      exists []. simpl. repeat split.
      unfold iterrows in Hnil. apply map_eq_nil in Hnil. now rewrite Hnil.
  - intros chosen db title text Hin.
    destruct chosen as [|e|df]; unfold upload_csv in *; try reflexivity.
    destruct (forallb (has_column df) required_columns); cbn [negb] in *;
      [|reflexivity].
    destruct (insert_rows (iterrows df) (connect db)) as [[[]|e] c'] eqn:Hrun.
    + simpl in Hin. destruct Hin as [H|[]]; discriminate.
    + cbn [file]. unfold dropped. now rewrite (insert_rows_disk _ _ _ _ Hrun).
Qed.

End Reports.

Lemma writers_report_what_they_did_witness :
  (exists r,
     stored (file (add_transaction (E := Sample.engine)
                     "2024-05-01" "Food" "12.5" "lunch" lunch_store))
     = stored lunch_store ++ [r])
  /\ (exists df recs,
        Parsed frame_unchecked = Parsed df
        /\ stored (file (upload_csv (E := Sample.engine)
                           (Parsed frame_unchecked) lunch_store))
           = stored lunch_store ++ recs
        /\ List.length recs = List.length (data df))
  /\ file (upload_csv (E := Sample.engine) (Parsed frame_with_gap)
                      lunch_store)
     = lunch_store.
Proof.
  split; [|split].
  - refine (proj1 (proj1 (writers_report_what_they_did (E := Sample.engine))
                         "2024-05-01" "Food" "12.5" "lunch" lunch_store) _).
    vm_compute. tauto.
  - refine (proj1 (proj2 (writers_report_what_they_did (E := Sample.engine)))
                  (Parsed frame_unchecked) lunch_store _).
    vm_compute. left. reflexivity.
  - refine (proj2 (proj2 (writers_report_what_they_did (E := Sample.engine)))
                  (Parsed frame_with_gap) lunch_store "Error"
                  "Failed to upload CSV: NOT NULL constraint failed: transactions.amount" _).
    vm_compute. left. reflexivity.
Defined.

(** ** A text amount, from the import to the display *)

Lemma view_uncaught_none_real :
  forall db on_display,
  view_uncaught (view_transactions db on_display) = None ->
  Forall real_amount (stored db).
Proof.
  intros [t|] on_display; [|intros _; constructor].
  unfold view_transactions. rewrite select_all_stored. simpl stored.
  destruct (rows t) as [|r l]; [intros _; constructor|].
  destruct (pack_labels_prefix (r :: l) [])
    as (shown_rows & rest & texts & Heq & _ & Hall & Hnone & _).
  cbv beta iota.
  destruct (pack_labels (r :: l) []) as [packed raised].
  cbn [snd view_uncaught] in *. intros Hr.
  apply Hnone in Hr. subst rest. rewrite app_nil_r in Heq. rewrite Heq.
  clear - Hall.
  induction Hall as [|x text xs ts Hx _ IH]; constructor;
    [now apply (label_text_real x text)|exact IH].
Qed.

Section TextAmount.
Context {E : Engine}.

(** X18. The import and the display do not agree on amounts.  A frame
    with its four columns and storable rows, one of which has as amount
    a text that is no number, is imported with the success message; from
    then on [view_transactions] raises [ValueError] when it formats that
    record. *)
Theorem text_amount_breaks_view :
  forall (df : DataFrame) (t : table) (i : nat) (row : Row) (s : string)
         (on_display : list string),
  forallb (has_column df) required_columns = true ->
  Forall storable (iterrows df) ->
  nth_error (iterrows df) i = Some row ->
  getitem row "amount" = Ok (PyStr s) ->
  text_to_real s = None ->
  shown (upload_csv (Parsed df) (Some t))
    = [ShowInfo "CSV Upload" "CSV file uploaded successfully."]
  /\ exists e,
       view_uncaught
         (view_transactions (file (upload_csv (Parsed df) (Some t)))
                            on_display)
       = Some e.
Proof.
  intros df t i row s on_display Hcols Hall Hnth Hamount Hreal.
  destruct (insert_rows_storable (iterrows df) (Some t) t Hall)
    as (recs & Hrun & _ & Hhold).
  assert (Hout : upload_csv (Parsed df) (Some t)
                 = mk_outcome
                     (Some (mk_table (rows t ++ recs)
                              (seq t + Z.of_nat (List.length recs))))
                     [ShowInfo "CSV Upload" "CSV file uploaded successfully."]
                     None).
  { unfold upload_csv. rewrite Hcols. cbn [negb]. unfold connect.
    now rewrite Hrun. }
  rewrite Hout. cbn [shown file]. split; [reflexivity|].
  destruct (hold_from_nth _ _ _ _ _ Hhold Hnth) as (r & Hr & Hh).
  destruct Hh as (pd & pc & pa & pds & _ & _ & Ha & _ & _ & _ & _ & Ka & _).
  rewrite Hamount in Ha. inversion Ha; subst pa.
  unfold kept_as_real in Ka. simpl in Ka. rewrite Hreal in Ka.
  inversion Ka as [Htext].
  match goal with
  | |- exists e, ?u = Some e => destruct u as [e|] eqn:Hview; [now exists e|]
  end.
  exfalso. apply view_uncaught_none_real in Hview. simpl in Hview.
  rewrite Forall_forall in Hview.
  destruct (Hview r) as [f Hf].
  - apply in_or_app. right. eapply nth_error_In. exact Hr.
  - rewrite <- Htext in Hf. discriminate.
Qed.

End TextAmount.

Lemma text_amount_breaks_view_witness :
  shown (upload_csv (E := Sample.engine)
           (Parsed (mk_frame ["date"; "category"; "amount"; "description"]
                      [[PyStr "2024-05-01"; PyStr "Food"; PyStr "ten";
                        PyStr "lunch"]]))
           (Some empty_table))
    = [ShowInfo "CSV Upload" "CSV file uploaded successfully."]
  /\ exists e,
       view_uncaught
         (view_transactions
            (file (upload_csv (E := Sample.engine)
                     (Parsed (mk_frame
                                ["date"; "category"; "amount"; "description"]
                                [[PyStr "2024-05-01"; PyStr "Food";
                                  PyStr "ten"; PyStr "lunch"]]))
                     (Some empty_table)))
            [])
       = Some e.
Proof.
  eapply (text_amount_breaks_view (E := Sample.engine) _ empty_table 0 _ "ten").
  - reflexivity.
  - constructor; [|constructor].
    unfold storable; do 4 eexists; repeat split; reflexivity.
  - reflexivity.
  - reflexivity.
  - reflexivity.
Defined.

(** ** The amount filter above zero and below *)

Lemma fgt_irreflexive : forall m, fgt m m = false.
Proof.
  intros [s|s| |s m e]; unfold fgt, SFltb; simpl; try reflexivity.
  - destruct s; reflexivity.
  - destruct s; rewrite Z.compare_refl, Pos.compare_cont_refl; reflexivity.
Qed.

(** X19. For a [min_amount] that [float] reads and that is not zero,
    the answer lists, in table order, the records whose REAL amount is
    strictly above it: an amount equal to [min_amount] is left out.  A
    [min_amount] that is NaN selects nothing. *)
Theorem above_amount_is_strict :
  forall (args : query_args) (t : table) (m : float),
  args_get_float "min_amount" args = Some m ->
  feq m fzero = false ->
  exists l,
    get_transactions_above_amount args (Some t) = Json 200 (Records l)
    /\ (forall r x, amount r = AReal x ->
          (In r l <-> In r (rows t) /\ is_nan m = false /\ fgt x m = true))
    /\ (forall r, In r l -> amount r <> AReal m)
    /\ (is_nan m = true -> l = []).
Proof.
  intros args t m Hm Hz.
  exists (filter (amount_above (bind_float m)) (rows t)).
  split; [now apply above_amount_filters|]. split; [|split].
  - intros r x Hx. rewrite filter_In. unfold amount_above, bind_float.
    rewrite Hx. destruct (is_nan m); intuition discriminate.
  - intros r Hin Heq. apply filter_In in Hin as [_ Hin].
    unfold amount_above, bind_float in Hin. rewrite Heq in Hin.
    destruct (is_nan m); [discriminate|].
    now rewrite fgt_irreflexive in Hin.
  - intros Hnan. unfold bind_float. rewrite Hnan.
    induction (rows t) as [|r l IH]; simpl; [reflexivity|exact IH].
Qed.

Lemma above_amount_is_strict_witness :
  exists l,
    get_transactions_above_amount [("min_amount", "5")] lunch_store
      = Json 200 (Records l)
    /\ (forall r x, amount r = AReal x ->
          (In r l <-> In r [lunch] /\ is_nan (float_of_Z 5) = false
                      /\ fgt x (float_of_Z 5) = true))
    /\ (forall r, In r l -> amount r <> AReal (float_of_Z 5))
    /\ (is_nan (float_of_Z 5) = true -> l = []).
Proof.
  apply (above_amount_is_strict [("min_amount", "5")]
           (mk_table [lunch] 1) (float_of_Z 5));
    reflexivity.
Defined.
